(** * Slippage Sentinel: a shallow embedding of the slippage estimation engine

    The development follows the Python sources
    ([dex_config.py], [route_finder.py], [pool_analyzer.py],
    [trade_history.py], [slippage_calculator.py], [main.py]):

    - Python [int] is [Z]; [//] is floor division and raises on a zero
      divisor;
    - Python [float] is IEEE-754 binary64, given by the Standard Library's
      executable specification [SpecFloat] with [prec = 53], [emax = 1024];
    - exceptions are values of [result]; [try/except] is [try_except];
    - the chain (RPC node), the process environment and numpy are an
      interface [External] over an abstract world state that every remote
      call may change. *)

From Stdlib Require Import ZArith Lia SpecFloat Ascii String.
From stdpp Require Import gmap strings list sorting pretty.

Local Open Scope Z_scope.

(** ** Exceptions and results *)

Inductive exn_kind :=
  | ZeroDivisionError
  | OverflowError
  | ValueError
  | ExternalError
  | HTTPException (status_code : Z).

Record exn := Exn { exn_kind_of : exn_kind; exn_msg : string }.

Inductive result (A : Type) :=
  | Ok (a : A)
  | Raise (e : exn).
Arguments Ok {A} a.
Arguments Raise {A} e.

Definition rbind {A B} (r : result A) (f : A -> result B) : result B :=
  match r with
  | Ok a => f a
  | Raise e => Raise e
  end.

Notation "'try!' x := c1 'in' c2" := (rbind c1 (fun x => c2))
  (at level 10, x name, c1 at level 100, c2 at level 200).

Definition is_ok {A} (r : result A) : bool :=
  match r with Ok _ => true | Raise _ => false end.

(** ** Python floats: binary64 *)

Module PyFloat.

Definition prec : Z := 53.
Definition emax : Z := 1024.

Definition float := spec_float.

Definition mul : float -> float -> float := SFmul prec emax.
Definition div : float -> float -> float := SFdiv prec emax.
Definition ltb : float -> float -> bool := SFltb.

(** [float(n)] for a Python int: round to nearest, ties to even;
    [OverflowError] when the rounded value is not finite. *)
Definition of_int (n : Z) : result float :=
  match binary_normalize prec emax n 0 false with
  | S754_infinity _ =>
      Raise (Exn OverflowError "int too large to convert to float")
  | f => Ok f
  end.

(** [a / b] on two Python ints: the correctly rounded quotient
    (CPython's [long_true_divide]). *)
Definition int_true_div (a b : Z) : result float :=
  match b with
  | 0 => Raise (Exn ZeroDivisionError "division by zero")
  | _ =>
      let negate := xorb (a <? 0) (b <? 0) in
      match a with
      | 0 => Ok (S754_zero negate)
      | _ =>
          let '(q, e, l) :=
            SFdiv_core_binary prec emax (Z.abs a) 0 (Z.abs b) 0 in
          match binary_round_aux prec emax negate q e l with
          | S754_infinity _ =>
              Raise (Exn OverflowError
                       "integer division result too large for a float")
          | f => Ok f
          end
      end
  end.

(** [int(x)] on a float: truncation toward zero; raises on infinities
    and NaN. *)
Definition to_int (x : float) : result Z :=
  match x with
  | S754_zero _ => Ok 0
  | S754_finite s m e =>
      let mag :=
        if 0 <=? e then Z.shiftl (Z.pos m) e else Z.shiftr (Z.pos m) (- e) in
      Ok (if s then - mag else mag)
  | S754_infinity _ =>
      Raise (Exn OverflowError "cannot convert float infinity to integer")
  | S754_nan =>
      Raise (Exn ValueError "cannot convert float NaN to integer")
  end.

(** [x * n] and [n * x] with [n] a Python int: the int is converted
    first. *)
Definition mul_int (x : float) (n : Z) : result float :=
  try! y := of_int n in Ok (mul x y).

Definition int_mul (n : Z) (x : float) : result float :=
  try! y := of_int n in Ok (mul y x).

(** Literals of the sources. *)
Definition zero : float := S754_zero false.                           (* 0.0 *)
Definition c0_01 : float := S754_finite false 5764607523034235 (-59). (* 0.01 *)
Definition c1_5 : float := S754_finite false 6755399441055744 (-52).  (* 1.5 *)
Definition c10 : float := S754_finite false 5629499534213120 (-49).   (* 10 *)
Definition c100 : float := S754_finite false 7036874417766400 (-46).  (* 100.0 *)

Definition is_finite (x : float) : bool :=
  match x with
  | S754_zero _ | S754_finite _ _ _ => true
  | _ => false
  end.

End PyFloat.

Abbreviation float := PyFloat.float.

(** ** Python integer division *)

Definition py_floordiv (a b : Z) : result Z :=
  if b =? 0
  then Raise (Exn ZeroDivisionError "integer division or modulo by zero")
  else Ok (a / b).

(** ** pool_analyzer.py: the pure part of [PoolAnalyzer] *)

Inductive liquidity_score := low | medium | high.

Definition liquidity_score_str (s : liquidity_score) : string :=
  match s with low => "low" | medium => "medium" | high => "high" end.

Record LiquidityDepth := {
  reserve_in_tokens : float;
  reserve_out_tokens : float;
  ld_liquidity_score : liquidity_score;
  ld_recommended_max_trade : Z;
}.

Definition default_fee_bps : Z := 30.
Definition default_decimals : N := 18.

Definition calculate_output_amount
    (amount_in reserve_in reserve_out fee_bps : Z) : result Z :=
  let amount_in_with_fee := amount_in * (10000 - fee_bps) in
  let numerator := amount_in_with_fee * reserve_out in
  let denominator := reserve_in * 10000 + amount_in_with_fee in
  py_floordiv numerator denominator.

Definition calculate_price_impact
    (amount_in reserve_in reserve_out : Z) : result float :=
  if reserve_in =? 0 then Ok PyFloat.c100
  else
    try! q := PyFloat.int_true_div amount_in reserve_in in
    PyFloat.mul_int q 100.

(** [decimals_in], [decimals_out] are token decimals; every call site uses
    the default 18, and the type [N] leaves out negative exponents (for
    which [10 ** d] is a float in Python). *)
Definition estimate_liquidity_depth
    (reserve_in reserve_out : Z) (decimals_in decimals_out : N)
    : result LiquidityDepth :=
  try! r_in := PyFloat.int_true_div reserve_in (10 ^ Z.of_N decimals_in) in
  try! r_out := PyFloat.int_true_div reserve_out (10 ^ Z.of_N decimals_out) in
  try! p := PyFloat.int_mul reserve_in PyFloat.c0_01 in
  try! recommended_max_trade := PyFloat.to_int p in
  let score :=
    if PyFloat.ltb PyFloat.c100 r_in then high
    else if PyFloat.ltb PyFloat.c10 r_in then medium
    else low in
  Ok {| reserve_in_tokens := r_in;
        reserve_out_tokens := r_out;
        ld_liquidity_score := score;
        ld_recommended_max_trade := recommended_max_trade |}.

(** ** Strings as Python uses them *)

(** [s.lower()], on ASCII. *)
Definition ascii_lower (c : ascii) : ascii :=
  let n := nat_of_ascii c in
  if (65 <=? n)%nat && (n <=? 90)%nat then ascii_of_nat (n + 32) else c.

Fixpoint lower (s : string) : string :=
  match s with
  | EmptyString => EmptyString
  | String c s' => String (ascii_lower c) (lower s')
  end.

(** [s[i:j]] for [0 <= i <= j]: clipped at the end of the string. *)
Definition py_slice (s : string) (i j : nat) : string :=
  substring i (j - i) s.

(** Truthiness of a string: [if s:] holds for non-empty strings. *)
Definition truthy (s : string) : bool :=
  match s with EmptyString => false | _ => true end.

(** [int(s, base)] for [base] 10 or 16 on ASCII text or on bytes:
    surrounding whitespace is dropped, then an optional sign, for base 16 an
    optional [0x] prefix, then digits in which single underscores may
    separate digits. Anything else is a [ValueError]. Digits outside ASCII
    and the limit that recent interpreters put on the length of a decimal
    text (4300 digits) are outside this model. *)
Definition is_space (c : ascii) : bool :=
  let n := nat_of_ascii c in
  (n =? 32)%nat || ((9 <=? n)%nat && (n <=? 13)%nat).

Fixpoint lstrip (s : list ascii) : list ascii :=
  match s with
  | c :: s' => if is_space c then lstrip s' else s
  | [] => []
  end.

Definition strip (s : list ascii) : list ascii :=
  rev (lstrip (rev (lstrip s))).

Definition digit_value (base : Z) (c : ascii) : option Z :=
  let n := Z.of_nat (nat_of_ascii c) in
  let v :=
    if (48 <=? n) && (n <=? 57) then Some (n - 48)
    else if (97 <=? n) && (n <=? 122) then Some (n - 87)
    else if (65 <=? n) && (n <=? 90) then Some (n - 55)
    else None in
  match v with
  | Some d => if d <? base then Some d else None
  | None => None
  end.

(** [parse_digits base acc after_digit s]: [after_digit] tells whether the
    previous character was a digit (an underscore is only legal there, and
    the text may not end on one). *)
Fixpoint parse_digits (base acc : Z) (after_digit : bool) (s : list ascii)
    : option Z :=
  match s with
  | [] => if after_digit then Some acc else None
  | c :: s' =>
      if Ascii.eqb c "_"%char then
        if after_digit then
          match s' with
          | [] => None
          | _ => parse_digits base acc false s'
          end
        else None
      else
        match digit_value base c with
        | Some d => parse_digits base (acc * base + d) true s'
        | None => None
        end
  end.

Definition strip_base_prefix (base : Z) (s : list ascii) : list ascii * bool :=
  if base =? 16 then
    match s with
    | "0"%char :: x :: s' =>
        if Ascii.eqb x "x"%char || Ascii.eqb x "X"%char
        then (s', true) else (s, false)
    | _ => (s, false)
    end
  else (s, false).

Definition parse_int (s : string) (base : Z) : option Z :=
  let body := strip (list_ascii_of_string s) in
  let '(negative, unsigned) :=
    match body with
    | "-"%char :: r => (true, r)
    | "+"%char :: r => (false, r)
    | _ => (false, body)
    end in
  let '(digits, prefixed) := strip_base_prefix base unsigned in
  let digits' :=
    match digits with
    | "_"%char :: r => if prefixed then r else digits
    | _ => digits
    end in
  match parse_digits base 0 false digits' with
  | Some n => Some (if negative then - n else n)
  | None => None
  end.

Definition py_int (s : string) (base : Z) : result Z :=
  match parse_int s base with
  | Some n => Ok n
  | None => Raise (Exn ValueError "invalid literal for int()")
  end.

(** [str(n)] for an int, and [repr] of a list of ints. *)
Definition py_str_int (n : Z) : string := pretty n.

Definition py_repr_int_list (l : list Z) : string :=
  "[" +:+ String.concat ", " (map py_str_int l) +:+ "]".

(** ** Python dicts that are enumerated: association lists in insertion
    order *)

Section Dict.
Context {K V : Type} `{EqDecision K}.

(** [d.get(k)] *)
Fixpoint dict_get (k : K) (d : list (K * V)) : option V :=
  match d with
  | [] => None
  | (k', v) :: d' => if decide (k = k') then Some v else dict_get k d'
  end.

(** [k in d] *)
Definition dict_mem (k : K) (d : list (K * V)) : bool :=
  match dict_get k d with Some _ => true | None => false end.

(** [list(d.keys())] *)
Definition dict_keys (d : list (K * V)) : list K := map fst d.
End Dict.

(** ** dex_config.py *)

Record ChainConfig := {
  cc_name : string;
  cc_symbol : string;
  cc_rpc_env : string;
  cc_default_rpc : string;
}.

Definition CHAIN_CONFIG : list (Z * ChainConfig) :=
  [ (1, {| cc_name := "Ethereum"; cc_symbol := "ETH";
           cc_rpc_env := "ETHEREUM_RPC_URL";
           cc_default_rpc := "https://eth.llamarpc.com" |});
    (137, {| cc_name := "Polygon"; cc_symbol := "MATIC";
             cc_rpc_env := "POLYGON_RPC_URL";
             cc_default_rpc := "https://polygon.llamarpc.com" |});
    (42161, {| cc_name := "Arbitrum"; cc_symbol := "ETH";
               cc_rpc_env := "ARBITRUM_RPC_URL";
               cc_default_rpc := "https://arbitrum.llamarpc.com" |});
    (10, {| cc_name := "Optimism"; cc_symbol := "ETH";
            cc_rpc_env := "OPTIMISM_RPC_URL";
            cc_default_rpc := "https://optimism.llamarpc.com" |});
    (8453, {| cc_name := "Base"; cc_symbol := "ETH";
              cc_rpc_env := "BASE_RPC_URL";
              cc_default_rpc := "https://base.llamarpc.com" |});
    (56, {| cc_name := "BNB Chain"; cc_symbol := "BNB";
            cc_rpc_env := "BSC_RPC_URL";
            cc_default_rpc := "https://bsc.llamarpc.com" |});
    (43114, {| cc_name := "Avalanche"; cc_symbol := "AVAX";
               cc_rpc_env := "AVALANCHE_RPC_URL";
               cc_default_rpc := "https://avalanche.llamarpc.com" |}) ].

Definition DEX_FACTORIES : list (Z * list (string * string)) :=
  [ (1, [ ("uniswap_v2", "0x5C69bEe701ef814a2B6a3EDD4B1652CB9cc5aA6f");
          ("sushiswap", "0xC0AEe478e3658e2610c5F7A4A2E1777cE9e4f2Ac") ]);
    (137, [ ("quickswap", "0x5757371414417b8C6CAad45bAeF941aBc7d3Ab32");
            ("sushiswap", "0xc35DADB65012eC5796536bD9864eD8773aBc74C4") ]);
    (42161, [ ("sushiswap", "0xc35DADB65012eC5796536bD9864eD8773aBc74C4");
              ("uniswap_v2", "0xf1D7CC64Fb4452F05c498126312eBE29f30Fbcf9") ]);
    (10, [ ("uniswap_v2", "0x0c3c1c532F1e39EdF36BE9Fe0bE1410313E074Bf") ]);
    (8453, [ ("uniswap_v2", "0x8909Dc15e40173Ff4699343b6eB8132c65e18eC6") ]);
    (56, [ ("pancakeswap", "0xcA143Ce32Fe78f1f7019d7d551a6402fC5350c73");
           ("sushiswap", "0xc35DADB65012eC5796536bD9864eD8773aBc74C4") ]);
    (43114, [ ("traderjoe", "0x9Ad6C38BE94206cA50bb0d90783181662f0Cfa10");
              ("sushiswap", "0xc35DADB65012eC5796536bD9864eD8773aBc74C4") ]) ].

(** [DEX_FACTORIES.get(chain_id, {})] *)
Definition factories_of (chain_id : Z) : list (string * string) :=
  default [] (dict_get chain_id DEX_FACTORIES).

Definition ZERO_ADDRESS : string :=
  "0x0000000000000000000000000000000000000000".

(** ** The outside world

    A [Web3] value is a connection handle; it remembers the endpoint it was
    opened on. Every remote call takes the world to a new world and either
    answers or raises. [numpy] and the builtin [round] are pure. *)

Record Web3 := { provider_url : string }.

(** [log_data] is the payload of the log, byte by byte, as the node
    library hands it over. *)
Record Log := { log_blockNumber : Z; log_data : string }.

(** The payload of a Swap log as [w3.eth.get_logs] delivers it: the four
    [uint256] amounts of the event, each as 32 raw bytes, most significant
    byte first (128 bytes in all). *)
Fixpoint be_bytes (n : nat) (v : Z) : list ascii :=
  match n with
  | O => []
  | S n' =>
      ascii_of_nat (Z.to_nat ((v / 256 ^ Z.of_nat n') mod 256))
      :: be_bytes n' v
  end.

Definition swap_log_bytes (a0in a1in a0out a1out : Z) : string :=
  string_of_list_ascii
    (be_bytes 32 a0in ++ be_bytes 32 a1in
     ++ be_bytes 32 a0out ++ be_bytes 32 a1out).

(** A log with such a payload whose [amount0In] is below [2 ^ 232] (a
    Uniswap V2 amount is below [2 ^ 112]). *)
Definition raw_swap_log (log : Log) : Prop :=
  exists a0in a1in a0out a1out,
    0 <= a0in < 2 ^ 232
    /\ log_data log = swap_log_bytes a0in a1in a0out a1out.

Record FilterParams := {
  fp_address : string;
  fp_fromBlock : Z;
  fp_toBlock : Z;
  fp_topics : list string;
}.

Class External (World : Type) := {
  (** [os.getenv(name)] *)
  os_getenv : World -> string -> option string;
  (** [Web3(Web3.HTTPProvider(url)).is_connected()] *)
  w3_is_connected : string -> World -> result bool * World;
  (** [Web3.to_checksum_address(a)] *)
  to_checksum_address : string -> result string;
  (** [factory.functions.getPair(a, b).call()] *)
  factory_getPair :
    Web3 -> string -> string -> string -> World -> result string * World;
  (** [pair.functions.getReserves().call()] *)
  pair_getReserves : Web3 -> string -> World -> result (Z * Z * Z) * World;
  (** [pair.functions.token0().call()], [token1] *)
  pair_token0 : Web3 -> string -> World -> result string * World;
  pair_token1 : Web3 -> string -> World -> result string * World;
  (** [w3.eth.block_number], [w3.eth.get_logs(filter)] *)
  eth_block_number : Web3 -> World -> result Z * World;
  eth_get_logs : Web3 -> FilterParams -> World -> result (list Log) * World;
  (** [Web3.keccak(text=...).hex()] of the Swap event signature *)
  SWAP_EVENT_SIGNATURE : string;
  (** [np.percentile(a, q)], [np.mean(a)], [np.std(a)] *)
  np_percentile : list Z -> Z -> result float;
  np_mean : list Z -> result float;
  np_std : list Z -> result float;
  (** [round(x, ndigits)] *)
  py_round : float -> Z -> float;
  (** [datetime.utcnow().isoformat()] *)
  utcnow_isoformat : World -> string;
}.

(** [get_rpc_url] of dex_config.py *)
Definition get_rpc_url `{External World} (w : World) (chain_id : Z)
    : option string :=
  match dict_get chain_id CHAIN_CONFIG with
  | None => None
  | Some config =>
      Some (default (cc_default_rpc config) (os_getenv w (cc_rpc_env config)))
  end.

(** ** Stateful code: a state monad with exceptions *)

Definition M (S A : Type) : Type := S -> result A * S.

Definition ret {S A} (a : A) : M S A := fun s => (Ok a, s).

Definition bind {S A B} (m : M S A) (f : A -> M S B) : M S B :=
  fun s =>
    match m s with
    | (Ok a, s') => f a s'
    | (Raise e, s') => (Raise e, s')
    end.

Definition raise {S A} (e : exn) : M S A := fun s => (Raise e, s).

Definition lift {S A} (r : result A) : M S A := fun s => (r, s).

(** [try: m  except Exception as e: h e] *)
Definition try_except {S A} (m : M S A) (h : exn -> M S A) : M S A :=
  fun s =>
    match m s with
    | (Ok a, s') => (Ok a, s')
    | (Raise e, s') => h e s'
    end.

Notation "'let*' x := c1 'in' c2" := (bind c1 (fun x => c2))
  (at level 10, x name, c1 at level 100, c2 at level 200).

(** An object with a connection cache ([self.w3_connections]) in a world. *)
Record Self (World : Type) := {
  w3_connections : gmap Z Web3;
  world : World;
}.
Arguments w3_connections {World} _.
Arguments world {World} _.

(** The dict returned by [find_best_route]. *)
Record Route := {
  route_pair_address : string;
  route_dex_name : string;
  route_factory_address : option string;
}.

(** The dict returned by [get_pool_reserves]. *)
Record PoolReserves := {
  reserve_in : Z;
  reserve_out : Z;
  token_in_address : string;
  token_out_address : string;
  pr_k : Z;
}.

(** One entry of the list returned by [get_recent_swaps]. *)
Record Swap := {
  swap_block : Z;
  amount0In : Z;
  amount1In : Z;
  amount0Out : Z;
  amount1Out : Z;
  trade_size : Z;
}.

(** The dict returned by [analyze_trade_sizes]. *)
Record VolatilityMetrics := {
  trade_size_p50 : Z;
  trade_size_p95 : Z;
  trade_size_p99 : Z;
  vm_volatility_factor : float;
  total_swaps : Z;
}.

Section Components.
Context {World : Type} `{External World}.

(** A remote call made from a method. *)
Definition remote {A} (call : World -> result A * World)
    : M (Self World) A :=
  fun self =>
    let '(r, w) := call (world self) in
    (r, {| w3_connections := w3_connections self; world := w |}).

(** [get_w3]: the same method in [RouteFinder], [PoolAnalyzer] and
    [TradeHistoryAnalyzer]. *)
Definition get_w3 (chain_id : Z) : M (Self World) (option Web3) :=
  fun self =>
    match w3_connections self !! chain_id with
    | Some w3 => (Ok (Some w3), self)
    | None =>
        match get_rpc_url (world self) chain_id with
        | None => (Ok None, self)
        | Some rpc_url =>
            if negb (truthy rpc_url) then (Ok None, self)
            else
              let w3 := {| provider_url := rpc_url |} in
              match w3_is_connected rpc_url (world self) with
              | (Ok true, w) =>
                  (Ok (Some w3),
                   {| w3_connections := <[chain_id := w3]> (w3_connections self);
                      world := w |})
              | (Ok false, w) | (Raise _, w) =>
                  (Ok None,
                   {| w3_connections := w3_connections self; world := w |})
              end
        end
    end.

(** *** route_finder.py *)

Definition find_pair_on_dex
    (chain_id : Z) (dex_name token_in token_out : string)
    : M (Self World) (option string) :=
  try_except
    (let* w3 := get_w3 chain_id in
     match w3 with
     | None => ret None
     | Some w3 =>
         let factories := factories_of chain_id in
         let factory_address := dict_get (lower dex_name) factories in
         match factory_address with
         | None => ret None
         | Some factory_address =>
             if negb (truthy factory_address) then ret None
             else
               let* factory := lift (to_checksum_address factory_address) in
               let* a := lift (to_checksum_address token_in) in
               let* b := lift (to_checksum_address token_out) in
               let* pair_address := remote (factory_getPair w3 factory a b) in
               if String.eqb pair_address ZERO_ADDRESS then ret None
               else ret (Some pair_address)
         end
     end)
    (fun _ => ret None).

(** The loop [for dex_name, factory_address in factories.items()] of
    [find_best_route]. *)
Fixpoint find_best_route_loop
    (chain_id : Z) (token_in token_out : string)
    (items : list (string * string)) : M (Self World) (option Route) :=
  match items with
  | [] => ret None
  | (dex_name, factory_address) :: items' =>
      let* pair_address :=
        find_pair_on_dex chain_id dex_name token_in token_out in
      match pair_address with
      | Some p =>
          if truthy p then
            ret (Some {| route_pair_address := p;
                         route_dex_name := dex_name;
                         route_factory_address := Some factory_address |})
          else find_best_route_loop chain_id token_in token_out items'
      | None => find_best_route_loop chain_id token_in token_out items'
      end
  end.

Definition find_best_route
    (chain_id : Z) (token_in token_out : string) (route_hint : option string)
    : M (Self World) (option Route) :=
  let scan :=
    find_best_route_loop chain_id token_in token_out (factories_of chain_id) in
  match route_hint with
  | Some hint =>
      if truthy hint then
        let* pair_address :=
          find_pair_on_dex chain_id hint token_in token_out in
        match pair_address with
        | Some p =>
            if truthy p then
              let factories := factories_of chain_id in
              let factory_address := dict_get (lower hint) factories in
              ret (Some {| route_pair_address := p;
                           route_dex_name := hint;
                           route_factory_address := factory_address |})
            else scan
        | None => scan
        end
      else scan
  | None => scan
  end.

Fixpoint find_all_routes_loop
    (chain_id : Z) (token_in token_out : string)
    (items : list (string * string)) (routes : list Route)
    : M (Self World) (list Route) :=
  match items with
  | [] => ret routes
  | (dex_name, factory_address) :: items' =>
      let* pair_address :=
        find_pair_on_dex chain_id dex_name token_in token_out in
      let routes' :=
        match pair_address with
        | Some p =>
            if truthy p then
              routes ++ [ {| route_pair_address := p;
                             route_dex_name := dex_name;
                             route_factory_address := Some factory_address |} ]
            else routes
        | None => routes
        end in
      find_all_routes_loop chain_id token_in token_out items' routes'
  end.

Definition find_all_routes (chain_id : Z) (token_in token_out : string)
    : M (Self World) (list Route) :=
  find_all_routes_loop chain_id token_in token_out (factories_of chain_id) [].

(** *** pool_analyzer.py: [get_pool_reserves] *)

Definition get_pool_reserves
    (chain_id : Z) (pair_address token_in token_out : string)
    : M (Self World) (option PoolReserves) :=
  try_except
    (let* w3 := get_w3 chain_id in
     match w3 with
     | None => ret None
     | Some w3 =>
         let* pair := lift (to_checksum_address pair_address) in
         let* reserves := remote (pair_getReserves w3 pair) in
         let '(reserve0, reserve1, _) := reserves in
         let* token0 := remote (pair_token0 w3 pair) in
         let* token1 := remote (pair_token1 w3 pair) in
         let* token_in_checksum := lift (to_checksum_address token_in) in
         let* token_out_checksum := lift (to_checksum_address token_out) in
         let found r_in r_out :=
           ret (Some {| reserve_in := r_in;
                        reserve_out := r_out;
                        token_in_address := token_in_checksum;
                        token_out_address := token_out_checksum;
                        pr_k := r_in * r_out |}) in
         if String.eqb (lower token0) (lower token_in_checksum)
         then found reserve0 reserve1
         else if String.eqb (lower token1) (lower token_in_checksum)
         then found reserve1 reserve0
         else ret None
     end)
    (fun _ => ret None).

(** *** trade_history.py *)

(** The body of the per-log [try] in [get_recent_swaps]. *)
Definition decode_swap_log (log : Log) : result Swap :=
  let data := log_data log in
  try! a0in := py_int (py_slice data 2 66) 16 in
  try! a1in := py_int (py_slice data 66 130) 16 in
  try! a0out := py_int (py_slice data 130 194) 16 in
  try! a1out := py_int (py_slice data 194 258) 16 in
  Ok {| swap_block := log_blockNumber log;
        amount0In := a0in;
        amount1In := a1in;
        amount0Out := a0out;
        amount1Out := a1out;
        trade_size := a0in + a1in |}.

Fixpoint decode_swap_logs (logs : list Log) (swaps : list Swap) : list Swap :=
  match logs with
  | [] => swaps
  | log :: logs' =>
      match decode_swap_log log with
      | Ok swap => decode_swap_logs logs' (swaps ++ [swap])
      | Raise _ => decode_swap_logs logs' swaps
      end
  end.

Definition get_recent_swaps
    (chain_id : Z) (pair_address : string) (blocks_back : Z)
    : M (Self World) (list Swap) :=
  try_except
    (let* w3 := get_w3 chain_id in
     match w3 with
     | None => ret []
     | Some w3 =>
         let* current_block := remote (eth_block_number w3) in
         let from_block := Z.max 0 (current_block - blocks_back) in
         let* address := lift (to_checksum_address pair_address) in
         let filter_params :=
           {| fp_address := address;
              fp_fromBlock := from_block;
              fp_toBlock := current_block;
              fp_topics := [SWAP_EVENT_SIGNATURE] |} in
         let* logs := remote (eth_get_logs w3 filter_params) in
         ret (decode_swap_logs logs [])
     end)
    (fun _ => ret []).

Definition zero_metrics (n : Z) : VolatilityMetrics :=
  {| trade_size_p50 := 0;
     trade_size_p95 := 0;
     trade_size_p99 := 0;
     vm_volatility_factor := PyFloat.zero;
     total_swaps := n |}.

(** [int(np.percentile(trade_sizes, q))] *)
Definition int_percentile (trade_sizes : list Z) (q : Z) : result Z :=
  try! x := np_percentile trade_sizes q in PyFloat.to_int x.

(** [[swap["trade_size"] for swap in swaps if swap["trade_size"] > 0]] *)
Definition positive_sizes (swaps : list Swap) : list Z :=
  map trade_size (filter (fun swap => 0 < trade_size swap) swaps).

Definition analyze_trade_sizes (swaps : list Swap)
    : result VolatilityMetrics :=
  match swaps with
  | [] => Ok (zero_metrics 0)
  | _ =>
      let trade_sizes := positive_sizes swaps in
      match trade_sizes with
      | [] => Ok (zero_metrics (Z.of_nat (length swaps)))
      | _ =>
          try! p50 := int_percentile trade_sizes 50 in
          try! p95 := int_percentile trade_sizes 95 in
          try! p99 := int_percentile trade_sizes 99 in
          try! mean_size := np_mean trade_sizes in
          try! std_size := np_std trade_sizes in
          let volatility_factor :=
            if PyFloat.ltb PyFloat.zero mean_size
            then PyFloat.div std_size mean_size
            else PyFloat.zero in
          Ok {| trade_size_p50 := p50;
                trade_size_p95 := p95;
                trade_size_p99 := p99;
                vm_volatility_factor := volatility_factor;
                total_swaps := Z.of_nat (length swaps) |}
      end
  end.

Definition get_volatility_metrics
    (chain_id : Z) (pair_address : string) (blocks_back : Z)
    : M (Self World) VolatilityMetrics :=
  let* swaps := get_recent_swaps chain_id pair_address blocks_back in
  lift (analyze_trade_sizes swaps).

End Components.

(** ** slippage_calculator.py *)

Record PoolDepths := {
  token_in_reserve : string;
  token_out_reserve : string;
  pd_reserve_in_tokens : float;
  pd_reserve_out_tokens : float;
  pd_liquidity_score : string;
}.

(** The dict returned by [calculate_safe_slippage]. *)
Record SlippageResult := {
  min_safe_slip_bps : Z;
  pool_depths : PoolDepths;
  recent_trade_size_p95 : Z;
  price_impact_bps : Z;
  volatility_factor : float;
  recommended_max_trade : Z;
  route_used : string;
  pair_address : string;
}.

Record HopDetail := {
  hop_token_in : string;
  hop_token_out : string;
  hop_slippage_bps : Z;
  hop_pair_address : string;
}.

(** The dict returned by [calculate_multi_hop_slippage]. *)
Record MultiHopResult := {
  total_slippage_bps : Z;
  num_hops : Z;
  hop_details : list HopDetail;
}.

(** A [SlippageCalculator]: its three components, each with its own
    connection cache, in one world. *)
Record Calculator (World : Type) := {
  pool_analyzer : gmap Z Web3;
  trade_analyzer : gmap Z Web3;
  route_finder : gmap Z Web3;
  calc_world : World;
}.
Arguments pool_analyzer {World} _.
Arguments trade_analyzer {World} _.
Arguments route_finder {World} _.
Arguments calc_world {World} _.

Section SlippageCalculator.
Context {World : Type} `{External World}.

(** Method calls on the components: [self.route_finder.m(...)] etc. *)
Definition on_route_finder {A} (m : M (Self World) A)
    : M (Calculator World) A :=
  fun c =>
    let '(r, self) :=
      m {| w3_connections := route_finder c; world := calc_world c |} in
    (r, {| pool_analyzer := pool_analyzer c;
           trade_analyzer := trade_analyzer c;
           route_finder := w3_connections self;
           calc_world := world self |}).

Definition on_pool_analyzer {A} (m : M (Self World) A)
    : M (Calculator World) A :=
  fun c =>
    let '(r, self) :=
      m {| w3_connections := pool_analyzer c; world := calc_world c |} in
    (r, {| pool_analyzer := w3_connections self;
           trade_analyzer := trade_analyzer c;
           route_finder := route_finder c;
           calc_world := world self |}).

Definition on_trade_analyzer {A} (m : M (Self World) A)
    : M (Calculator World) A :=
  fun c =>
    let '(r, self) :=
      m {| w3_connections := trade_analyzer c; world := calc_world c |} in
    (r, {| pool_analyzer := pool_analyzer c;
           trade_analyzer := w3_connections self;
           route_finder := route_finder c;
           calc_world := world self |}).

Definition liquidity_buffer_bps (score : liquidity_score) : Z :=
  match score with
  | low => 50
  | medium => 25
  | high => 10
  end.

Definition calculate_safe_slippage
    (chain_id : Z) (token_in token_out : string) (amount_in : Z)
    (route_hint : option string)
    : M (Calculator World) (option SlippageResult) :=
  try_except
    (let* route :=
       on_route_finder
         (find_best_route chain_id token_in token_out route_hint) in
     match route with
     | None => ret None
     | Some route =>
         let pair_address := route_pair_address route in
         let dex_name := route_dex_name route in
         let* reserves :=
           on_pool_analyzer
             (get_pool_reserves chain_id pair_address token_in token_out) in
         match reserves with
         | None => ret None
         | Some reserves =>
             let reserve_in := reserve_in reserves in
             let reserve_out := reserve_out reserves in
             let* price_impact_pct :=
               lift (calculate_price_impact amount_in reserve_in reserve_out) in
             let* price_impact_bps :=
               lift (try! x := PyFloat.mul_int price_impact_pct 100 in
                     PyFloat.to_int x) in
             let* liquidity_metrics :=
               lift (estimate_liquidity_depth reserve_in reserve_out
                       default_decimals default_decimals) in
             let* volatility_metrics :=
               on_trade_analyzer
                 (get_volatility_metrics chain_id pair_address 500) in
             let volatility_factor := vm_volatility_factor volatility_metrics in
             let trade_size_p95 := trade_size_p95 volatility_metrics in
             let* base_slippage_bps :=
               lift (try! x := PyFloat.int_mul price_impact_bps PyFloat.c1_5 in
                     PyFloat.to_int x) in
             let* volatility_buffer_bps :=
               lift (try! x := PyFloat.mul_int volatility_factor 100 in
                     PyFloat.to_int x) in
             let liquidity_score := ld_liquidity_score liquidity_metrics in
             let liquidity_buffer_bps := liquidity_buffer_bps liquidity_score in
             let mev_buffer_bps := 20 in
             let min_safe_slip_bps :=
               base_slippage_bps + volatility_buffer_bps
               + liquidity_buffer_bps + mev_buffer_bps in
             let min_safe_slip_bps :=
               Z.max 50 (Z.min 5000 min_safe_slip_bps) in
             let pool_depths :=
               {| token_in_reserve := py_str_int reserve_in;
                  token_out_reserve := py_str_int reserve_out;
                  pd_reserve_in_tokens := reserve_in_tokens liquidity_metrics;
                  pd_reserve_out_tokens := reserve_out_tokens liquidity_metrics;
                  pd_liquidity_score := liquidity_score_str liquidity_score |} in
             ret (Some
               {| min_safe_slip_bps := min_safe_slip_bps;
                  pool_depths := pool_depths;
                  recent_trade_size_p95 := trade_size_p95;
                  price_impact_bps := price_impact_bps;
                  volatility_factor := py_round volatility_factor 4;
                  recommended_max_trade :=
                    ld_recommended_max_trade liquidity_metrics;
                  route_used := dex_name;
                  pair_address := pair_address |})
         end
     end)
    (fun _ => ret None).

(** The loop of [calculate_multi_hop_slippage]; its state is
    [total_slippage_bps], [current_amount] and [hop_details]. [None] is the
    early [return None]. *)
Fixpoint multi_hop_loop
    (chain_id : Z) (route : list (string * string))
    (total_slippage_bps current_amount : Z) (hop_details : list HopDetail)
    : M (Calculator World) (option (Z * Z * list HopDetail)) :=
  match route with
  | [] => ret (Some (total_slippage_bps, current_amount, hop_details))
  | (token_in, token_out) :: route' =>
      let* result :=
        calculate_safe_slippage chain_id token_in token_out
          current_amount None in
      match result with
      | None => ret None
      | Some result =>
          let total_slippage_bps :=
            total_slippage_bps + min_safe_slip_bps result in
          let hop_details :=
            hop_details ++
              [ {| hop_token_in := token_in;
                   hop_token_out := token_out;
                   hop_slippage_bps := min_safe_slip_bps result;
                   hop_pair_address := pair_address result |} ] in
          let* reserves :=
            on_pool_analyzer
              (get_pool_reserves chain_id (pair_address result)
                 token_in token_out) in
          let* current_amount :=
            match reserves with
            | Some reserves =>
                lift (calculate_output_amount current_amount
                        (reserve_in reserves) (reserve_out reserves)
                        default_fee_bps)
            | None => ret current_amount
            end in
          multi_hop_loop chain_id route'
            total_slippage_bps current_amount hop_details
      end
  end.

Definition calculate_multi_hop_slippage
    (chain_id : Z) (route : list (string * string)) (amount_in : Z)
    : M (Calculator World) (option MultiHopResult) :=
  let* final := multi_hop_loop chain_id route 0 amount_in [] in
  match final with
  | None => ret None
  | Some (total_slippage_bps, _, hop_details) =>
      ret (Some {| total_slippage_bps := Z.min 5000 total_slippage_bps;
                   num_hops := Z.of_nat (length route);
                   hop_details := hop_details |})
  end.

End SlippageCalculator.

(** ** main.py: the estimation endpoint *)

Record SlippageRequest := {
  req_token_in : string;
  req_token_out : string;
  req_amount_in : string;
  req_chain : Z;
  req_route_hint : option string;
}.

Record SlippageResponse := {
  resp_min_safe_slip_bps : Z;
  resp_pool_depths : PoolDepths;
  resp_recent_trade_size_p95 : Z;
  resp_price_impact_bps : Z;
  resp_volatility_factor : float;
  resp_recommended_max_trade : Z;
  resp_route_used : string;
  resp_pair_address : string;
  resp_timestamp : string;
}.

Definition http_exception (status_code : Z) (detail : string) : exn :=
  Exn (HTTPException status_code) detail.

Definition FAILED_TO_CALCULATE : string :=
  "Failed to calculate slippage. Route may not exist or RPC unavailable.".

Section Main.
Context {World : Type} `{External World}.

(** [estimate_slippage]; a raised [HTTPException] is the HTTP error
    response FastAPI sends. The pydantic models are taken to accept the
    values built here. *)
Definition estimate_slippage (request : SlippageRequest)
    : M (Calculator World) SlippageResponse :=
  try_except
    (if negb (dict_mem (req_chain request) CHAIN_CONFIG) then
       raise (http_exception 400
                ("Chain " +:+ py_str_int (req_chain request)
                 +:+ " not supported. Supported: "
                 +:+ py_repr_int_list (dict_keys CHAIN_CONFIG)))
     else
       let* amount_in_wei :=
         try_except (lift (py_int (req_amount_in request) 10))
           (fun e =>
              match exn_kind_of e with
              | ValueError =>
                  raise (http_exception 400
                           ("Invalid amount_in: " +:+ req_amount_in request
                            +:+ ". Must be a valid integer in wei."))
              | _ => raise e
              end) in
       let* result :=
         calculate_safe_slippage (req_chain request)
           (req_token_in request) (req_token_out request)
           amount_in_wei (req_route_hint request) in
       match result with
       | None => raise (http_exception 503 FAILED_TO_CALCULATE)
       | Some result =>
           fun c =>
             (Ok {| resp_min_safe_slip_bps := min_safe_slip_bps result;
                    resp_pool_depths := pool_depths result;
                    resp_recent_trade_size_p95 := recent_trade_size_p95 result;
                    resp_price_impact_bps := price_impact_bps result;
                    resp_volatility_factor := volatility_factor result;
                    resp_recommended_max_trade := recommended_max_trade result;
                    resp_route_used := route_used result;
                    resp_pair_address := pair_address result;
                    resp_timestamp :=
                      utcnow_isoformat (calc_world c) +:+ "Z" |}, c)
       end)
    (fun e =>
       match exn_kind_of e with
       | HTTPException _ => raise e
       | _ =>
           raise (http_exception 500
                    ("Internal server error: " +:+ exn_msg e))
       end).

End Main.

(** ** The aggregation policy as the specification words it

    Used to compare [calculate_safe_slippage] with the documented policy:
    base = trunc(price_impact_bps x 1.5), volatility buffer =
    trunc(volatility_factor x 100), liquidity buffer 50 / 25 / 10, MEV buffer
    20, and the sum clamped to 50..5000. *)

Module Spec.

Definition clamp (x lo hi : Z) : Z := Z.max lo (Z.min hi x).

(** trunc(x * n) for a float [x] and an integer constant [n] *)
Definition trunc_mul (x : float) (n : Z) : result Z :=
  try! y := PyFloat.mul_int x n in PyFloat.to_int y.

Definition price_impact_bps (price_impact_percent : float) : result Z :=
  trunc_mul price_impact_percent 100.

Definition base (price_impact_bps : Z) : result Z :=
  try! y := PyFloat.int_mul price_impact_bps PyFloat.c1_5 in PyFloat.to_int y.

Definition liquidity_buffer (score : liquidity_score) : Z :=
  match score with low => 50 | medium => 25 | high => 10 end.

Definition mev_buffer : Z := 20.

Definition min_safe_slip_bps
    (price_impact_percent volatility_factor : float)
    (score : liquidity_score) : result Z :=
  try! bps := price_impact_bps price_impact_percent in
  try! b := base bps in
  try! volatility_buffer := trunc_mul volatility_factor 100 in
  Ok (clamp (b + volatility_buffer + liquidity_buffer score + mev_buffer)
        50 5000).

End Spec.

(** ** A scripted world

    A concrete instance of [External], used to run the engine on explicit
    inputs: factories answer from a table, each pool answers its reserves
    from a script that is consumed call by call (a call after the end of the
    script fails, as an unreachable node does), and numpy is replaced by
    exactly rounded statistics. *)

Module Scripted.

Record pool := {
  pool_token0 : string;
  pool_token1 : string;
  pool_reserves : list (result (Z * Z * Z));
  pool_logs : list Log;
}.

Record net := {
  (** (factory, token a, token b) to the answer of [getPair] *)
  pairs : list (string * string * string * string);
  (** pair address to pool *)
  pools : list (string * pool);
  head_block : Z;
}.

Definition rpc_error {A} : result A :=
  Raise (Exn ExternalError "connection refused").

Fixpoint pop_reserves (pair : string) (ps : list (string * pool))
    : result (Z * Z * Z) * list (string * pool) :=
  match ps with
  | [] => (rpc_error, [])
  | (a, p) :: ps' =>
      if String.eqb a pair then
        match pool_reserves p with
        | [] => (rpc_error, ps)
        | r :: rs =>
            (r, (a, {| pool_token0 := pool_token0 p;
                       pool_token1 := pool_token1 p;
                       pool_reserves := rs;
                       pool_logs := pool_logs p |}) :: ps')
        end
      else
        let '(r, ps'') := pop_reserves pair ps' in (r, (a, p) :: ps'')
  end.

Definition getPair (factory a b : string) (w : net) : result string :=
  match dict_get (factory, a, b) (pairs w) with
  | Some p => Ok p
  | None => rpc_error
  end.

Definition getReserves (pair : string) (w : net)
    : result (Z * Z * Z) * net :=
  let '(r, ps) := pop_reserves pair (pools w) in
  (r, {| pairs := pairs w; pools := ps; head_block := head_block w |}).

Definition pool_field (f : pool -> string) (pair : string) (w : net)
    : result string :=
  match dict_get pair (pools w) with
  | Some p => Ok (f p)
  | None => rpc_error
  end.

Definition get_logs (p : FilterParams) (w : net) : result (list Log) :=
  match dict_get (fp_address p) (pools w) with
  | Some pl =>
      Ok (filter (fun l => fp_fromBlock p <= log_blockNumber l
                           /\ log_blockNumber l <= fp_toBlock p)
            (pool_logs pl))
  | None => rpc_error
  end.

(** Exactly rounded statistics standing in for numpy. *)
Definition sum (l : list Z) : Z := fold_right Z.add 0 l.

Definition mean (l : list Z) : result float :=
  PyFloat.int_true_div (sum l) (Z.of_nat (length l)).

Definition std (l : list Z) : result float :=
  let n := Z.of_nat (length l) in
  let s := sum l in
  try! var := PyFloat.int_true_div
                (sum (map (fun x => (n * x - s) ^ 2) l)) (n ^ 3) in
  Ok (SFsqrt PyFloat.prec PyFloat.emax var).

Definition percentile (l : list Z) (q : Z) : result float :=
  let sorted := merge_sort Z.le l in
  let pos := q * (Z.of_nat (length l) - 1) in
  let i := Z.to_nat (pos / 100) in
  let r := pos mod 100 in
  let lo := nth i sorted 0 in
  let hi := nth (S i) sorted lo in
  PyFloat.int_true_div (100 * lo + (hi - lo) * r) 100.

#[global] Instance external : External net := {|
  os_getenv := fun _ _ => None;
  w3_is_connected := fun _ w => (Ok true, w);
  to_checksum_address := fun a => Ok a;
  factory_getPair := fun _ f a b w => (getPair f a b w, w);
  pair_getReserves := fun _ p w => getReserves p w;
  pair_token0 := fun _ p w => (pool_field pool_token0 p w, w);
  pair_token1 := fun _ p w => (pool_field pool_token1 p w, w);
  eth_block_number := fun _ w => (Ok (head_block w), w);
  eth_get_logs := fun _ p w => (get_logs p w, w);
  SWAP_EVENT_SIGNATURE :=
    "0xd78ad95fa46c994b6551d0da85fc275fe613ce37657fb8d5e3d130840159d822";
  np_percentile := percentile;
  np_mean := mean;
  np_std := std;
  py_round := fun x _ => x;
  utcnow_isoformat := fun _ => "2024-01-01T00:00:00";
|}.

Definition fresh (w : net) : Calculator net :=
  {| pool_analyzer := ∅; trade_analyzer := ∅; route_finder := ∅;
     calc_world := w |}.

(** Swaps of the examples: one without input, one of a given size. *)
Definition idle_swap (block : Z) : Swap :=
  {| swap_block := block; amount0In := 0; amount1In := 0;
     amount0Out := 0; amount1Out := 0; trade_size := 0 |}.

Definition sized_swap (block size : Z) : Swap :=
  {| swap_block := block; amount0In := size; amount1In := 0;
     amount0Out := 0; amount1Out := 0; trade_size := size |}.

(** Token and pool addresses of the examples. *)
Definition WETH : string := "0xC02aaA39b223FE8D0A0e5C4F27eAD9083C756Cc2".
Definition USDC : string := "0xA0b86991c6218b36c1d19D4a2e9Eb0cE3606eB48".
Definition DAI : string := "0x6B175474E89094C44Da98b954EedeAC495271d0F".
Definition UNI_FACTORY : string := "0x5C69bEe701ef814a2B6a3EDD4B1652CB9cc5aA6f".
Definition SUSHI_FACTORY : string := "0xC0AEe478e3658e2610c5F7A4A2E1777cE9e4f2Ac".
Definition POOL_A : string := "0xB4e16d0168e52d35CaCD2c6185b44281Ec28C9Dc".
Definition POOL_B : string := "0xAE461cA67B15dc8dc81CE7615e0320dA1A9aB8D5".

(** A deep pool: 1000 WETH against 2,000,000 units of an 18-decimal
    stablecoin, stored with the stablecoin as [token0]. The pool answers as
    many reserve reads as its script has entries. *)
Definition deep_reserves : result (Z * Z * Z) :=
  Ok (2000000 * 10 ^ 18, 1000 * 10 ^ 18, 0).

Definition deep_pool (script : list (result (Z * Z * Z))) : pool :=
  {| pool_token0 := USDC; pool_token1 := WETH;
     pool_reserves := script; pool_logs := [] |}.

(** Chain 1 where Uniswap has no WETH/USDC pair and Sushiswap has one. *)
Definition sushi_only : net :=
  {| pairs := [ ((UNI_FACTORY, WETH, USDC), ZERO_ADDRESS);
                ((SUSHI_FACTORY, WETH, USDC), POOL_A) ];
     pools := [ (POOL_A, deep_pool [deep_reserves; deep_reserves]) ];
     head_block := 19000000 |}.

(** Chain 1 where no exchange has the pair. *)
Definition no_route : net :=
  {| pairs := [ ((UNI_FACTORY, WETH, USDC), ZERO_ADDRESS);
                ((SUSHI_FACTORY, WETH, USDC), ZERO_ADDRESS) ];
     pools := [];
     head_block := 19000000 |}.

(** Chain 1 where Uniswap has the pair but the pool cannot be read. *)
Definition unreadable_pool : net :=
  {| pairs := [ ((UNI_FACTORY, WETH, USDC), POOL_A) ];
     pools := [ (POOL_A, deep_pool []) ];
     head_block := 19000000 |}.

(** Two hops WETH -> USDC -> DAI on Uniswap. The first pool answers the
    reserve read of the pipeline and fails the next one; the second pool
    answers both of its reads. *)
Definition two_hops : net :=
  {| pairs := [ ((UNI_FACTORY, WETH, USDC), POOL_A);
                ((UNI_FACTORY, USDC, DAI), POOL_B) ];
     pools := [ (POOL_A, deep_pool [deep_reserves]);
                (POOL_B, {| pool_token0 := USDC; pool_token1 := DAI;
                            pool_reserves :=
                              [ Ok (3000 * 10 ^ 18, 3000 * 10 ^ 18, 0);
                                Ok (3000 * 10 ^ 18, 3000 * 10 ^ 18, 0) ];
                            pool_logs := [] |}) ];
     head_block := 19000000 |}.

(** The same two hops with every reserve read answered. *)
Definition two_hops_healthy : net :=
  {| pairs := pairs two_hops;
     pools := [ (POOL_A, deep_pool [deep_reserves; deep_reserves]);
                (POOL_B, {| pool_token0 := USDC; pool_token1 := DAI;
                            pool_reserves :=
                              [ Ok (3000 * 10 ^ 18, 3000 * 10 ^ 18, 0);
                                Ok (3000 * 10 ^ 18, 3000 * 10 ^ 18, 0) ];
                            pool_logs := [] |}) ];
     head_block := 19000000 |}.

(** Chain 1 with the Sushiswap pool of [sushi_only] and two swaps in its
    recent history, of 5 and of 12 units of [token0]. *)
Definition raw_history : net :=
  {| pairs := pairs sushi_only;
     pools :=
       [ (POOL_A,
          {| pool_token0 := USDC; pool_token1 := WETH;
             pool_reserves := [deep_reserves; deep_reserves];
             pool_logs :=
               [ {| log_blockNumber := 18999800;
                    log_data :=
                      swap_log_bytes (5 * 10 ^ 18) 0 0 (2487 * 10 ^ 12) |};
                 {| log_blockNumber := 18999900;
                    log_data :=
                      swap_log_bytes (12 * 10 ^ 18) 0 0 (5968 * 10 ^ 12) |} ]
          |}) ];
     head_block := 19000000 |}.

Definition fresh_self (w : net) : Self net :=
  {| w3_connections := ∅; world := w |}.

Definition request (amount_in : string) : SlippageRequest :=
  {| req_token_in := WETH; req_token_out := USDC;
     req_amount_in := amount_in; req_chain := 1; req_route_hint := None |}.

(** The same world with environment variables set. *)
Definition with_env (env : list (string * string)) : External net :=
  {| os_getenv := fun _ name => dict_get name env;
     w3_is_connected := fun _ w => (Ok true, w);
     to_checksum_address := fun a => Ok a;
     factory_getPair := fun _ f a b w => (getPair f a b w, w);
     pair_getReserves := fun _ p w => getReserves p w;
     pair_token0 := fun _ p w => (pool_field pool_token0 p w, w);
     pair_token1 := fun _ p w => (pool_field pool_token1 p w, w);
     eth_block_number := fun _ w => (Ok (head_block w), w);
     eth_get_logs := fun _ p w => (get_logs p w, w);
     SWAP_EVENT_SIGNATURE :=
       "0xd78ad95fa46c994b6551d0da85fc275fe613ce37657fb8d5e3d130840159d822";
     np_percentile := percentile;
     np_mean := mean;
     np_std := std;
     py_round := fun x _ => x;
     utcnow_isoformat := fun _ => "2024-01-01T00:00:00" |}.

(** A world whose node cannot be asked for its head block. *)
Definition headless : External net :=
  {| os_getenv := fun _ _ => None;
     w3_is_connected := fun _ w => (Ok true, w);
     to_checksum_address := fun a => Ok a;
     factory_getPair := fun _ f a b w => (getPair f a b w, w);
     pair_getReserves := fun _ p w => getReserves p w;
     pair_token0 := fun _ p w => (pool_field pool_token0 p w, w);
     pair_token1 := fun _ p w => (pool_field pool_token1 p w, w);
     eth_block_number := fun _ w => (rpc_error, w);
     eth_get_logs := fun _ p w => (rpc_error, w);
     SWAP_EVENT_SIGNATURE :=
       "0xd78ad95fa46c994b6551d0da85fc275fe613ce37657fb8d5e3d130840159d822";
     np_percentile := percentile;
     np_mean := mean;
     np_std := std;
     py_round := fun x _ => x;
     utcnow_isoformat := fun _ => "2024-01-01T00:00:00" |}.

End Scripted.

(** ** dex_config.py: the two lookups on the tables *)

(** [get_chain_info] *)
Definition get_chain_info (chain_id : Z) : option ChainConfig :=
  dict_get chain_id CHAIN_CONFIG.

(** [get_dex_factory] *)
Definition get_dex_factory (chain_id : Z) (dex_name : string) : option string :=
  let factories := factories_of chain_id in
  dict_get (lower dex_name) factories.

(** ** main.py: settings, listings and the paid entrypoint *)

(** The module-level settings, read from the environment when the module
    is imported. *)
Record Settings := {
  payment_address : string;
  free_mode : bool;
}.

Definition DEFAULT_PAYMENT_ADDRESS : string :=
  "0x01D11F7e1a46AbFC6092d7be484895D2d505095c".

Definition DEFAULT_BASE_URL : string :=
  "https://slippage-sentinel-production.up.railway.app".

Definition load_settings `{External World} (w : World) : Settings :=
  {| payment_address :=
       default DEFAULT_PAYMENT_ADDRESS (os_getenv w "PAYMENT_ADDRESS");
     free_mode :=
       String.eqb (lower (default "false" (os_getenv w "FREE_MODE"))) "true" |}.

(** The dict returned by [health]. *)
Record Health := {
  health_status : string;
  health_supported_chains : Z;
  health_chain_ids : list Z;
  health_free_mode : bool;
}.

Definition health (settings : Settings) : Health :=
  let supported_chains := dict_keys CHAIN_CONFIG in
  {| health_status := "healthy";
     health_supported_chains := Z.of_nat (length supported_chains);
     health_chain_ids := supported_chains;
     health_free_mode := free_mode settings |}.

Record ChainEntry := {
  ce_chain_id : Z;
  ce_name : string;
  ce_symbol : string;
}.

(** The dict returned by [list_chains]. *)
Record ChainList := {
  cl_chains : list ChainEntry;
  cl_total : Z;
}.

Definition list_chains : ChainList :=
  let chains :=
    map (fun item =>
           {| ce_chain_id := fst item;
              ce_name := cc_name (snd item);
              ce_symbol := cc_symbol (snd item) |}) CHAIN_CONFIG in
  {| cl_chains := chains; cl_total := Z.of_nat (length chains) |}.

(** One entry of the [accepts] list of an x402 answer. *)
Record PaymentRequirement := {
  pay_scheme : string;
  pay_network : string;
  pay_maxAmountRequired : string;
  pay_resource : string;
  pay_description : string;
  pay_mimeType : string;
  pay_payTo : string;
  pay_maxTimeoutSeconds : Z;
  pay_asset : string;
}.

(** A [JSONResponse] carrying an x402 body. *)
Record PaymentRequired := {
  pr_status_code : Z;
  pr_x402Version : Z;
  pr_accepts : list PaymentRequirement;
}.

(** [entrypoint_slippage_get]: the discovery answer, HTTP 402. *)
Definition entrypoint_slippage_get `{External World}
    (settings : Settings) (w : World) : PaymentRequired :=
  let base_url := default DEFAULT_BASE_URL (os_getenv w "BASE_URL") in
  {| pr_status_code := 402;
     pr_x402Version := 1;
     pr_accepts :=
       [ {| pay_scheme := "exact";
            pay_network := "base";
            pay_maxAmountRequired := "50000";
            pay_resource := base_url +:+ "/entrypoints/slippage-sentinel/invoke";
            pay_description :=
              "Slippage Sentinel - Safe slippage estimation for any route";
            pay_mimeType := "application/json";
            pay_payTo := payment_address settings;
            pay_maxTimeoutSeconds := 30;
            pay_asset := "0x833589fCD6eDb6E08f4c7C32D4f71b54bdA02913" |} ] |}.

(** What [entrypoint_slippage_post] returns: the 402 answer or the
    estimate. *)
Inductive EntrypointAnswer :=
  | Unpaid (r : PaymentRequired)
  | Estimated (r : SlippageResponse).

(** Truthiness of an [Optional[str]]: [None] and the empty string are
    false. *)
Definition truthy_option (o : option string) : bool :=
  match o with
  | Some s => truthy s
  | None => false
  end.

(** [entrypoint_slippage_post] *)
Definition entrypoint_slippage_post `{External World}
    (settings : Settings)
    (request : option SlippageRequest) (x_payment_txhash : option string)
    : M (Calculator World) EntrypointAnswer :=
  match request with
  | None =>
      fun c => (Ok (Unpaid (entrypoint_slippage_get settings (calc_world c))), c)
  | Some request =>
      if negb (free_mode settings) && negb (truthy_option x_payment_txhash)
      then
        fun c =>
          (Ok (Unpaid (entrypoint_slippage_get settings (calc_world c))), c)
      else
        let* response := estimate_slippage request in
        ret (Estimated response)
  end.

(** The swap a log decodes to, if it decodes. *)
Definition decoded (log : Log) : option Swap :=
  match decode_swap_log log with
  | Ok swap => Some swap
  | Raise _ => None
  end.

(** ** Vocabulary of the statements about route discovery *)

Section Discovery.
Context {World : Type} `{External World}.

(** What the factory at [factory_address] answers when asked for the pair
    of the two tokens over the connection [w3]: the remote part of
    [find_pair_on_dex]. *)
Definition factory_answer
    (w3 : Web3) (factory_address token_in token_out : string)
    : M (Self World) string :=
  let* factory := lift (to_checksum_address factory_address) in
  let* a := lift (to_checksum_address token_in) in
  let* b := lift (to_checksum_address token_out) in
  remote (factory_getPair w3 factory a b).

(** The result of a lookup that [find_best_route] passes over. *)
Definition no_pair (r : option string) : Prop :=
  match r with
  | Some p => truthy p = false
  | None => True
  end.

(** [scanned_without_pair chain a b items s s']: starting in [s], the
    exchanges of [items] are looked up one after the other, in that order,
    none has the pair, and the last lookup ends in [s']. *)
Inductive scanned_without_pair (chain_id : Z) (token_in token_out : string)
    : list (string * string) -> Self World -> Self World -> Prop :=
  | scanned_nil s :
      scanned_without_pair chain_id token_in token_out [] s s
  | scanned_cons dex_name factory_address items s r s1 s2 :
      find_pair_on_dex chain_id dex_name token_in token_out s = (Ok r, s1) ->
      no_pair r ->
      scanned_without_pair chain_id token_in token_out items s1 s2 ->
      scanned_without_pair chain_id token_in token_out
        ((dex_name, factory_address) :: items) s s2.

End Discovery.

(** What the stages of [calculate_safe_slippage] obtain on a request, from
    the state [c] to the state [c']: the route, the reserves of its pool,
    the price impact in percent, the liquidity depth and the volatility
    metrics over 500 blocks. *)
Definition pipeline_obtained `{External World}
    (chain_id : Z) (token_in token_out : string) (amount_in : Z)
    (route_hint : option string) (c : Calculator World)
    (route : Route) (reserves : PoolReserves) (price_impact_pct : float)
    (depth : LiquidityDepth) (metrics : VolatilityMetrics)
    (c' : Calculator World) : Prop :=
  exists c1 c2,
    on_route_finder (find_best_route chain_id token_in token_out route_hint) c
    = (Ok (Some route), c1)
    /\ on_pool_analyzer
         (get_pool_reserves chain_id (route_pair_address route)
            token_in token_out) c1 = (Ok (Some reserves), c2)
    /\ calculate_price_impact amount_in
         (reserve_in reserves) (reserve_out reserves) = Ok price_impact_pct
    /\ estimate_liquidity_depth (reserve_in reserves) (reserve_out reserves)
         default_decimals default_decimals = Ok depth
    /\ on_trade_analyzer
         (get_volatility_metrics chain_id (route_pair_address route) 500) c2
       = (Ok metrics, c').

(** The response built from a complete result of the pipeline. *)
Definition response_of (result : SlippageResult) (timestamp : string)
    : SlippageResponse :=
  {| resp_min_safe_slip_bps := min_safe_slip_bps result;
     resp_pool_depths := pool_depths result;
     resp_recent_trade_size_p95 := recent_trade_size_p95 result;
     resp_price_impact_bps := price_impact_bps result;
     resp_volatility_factor := volatility_factor result;
     resp_recommended_max_trade := recommended_max_trade result;
     resp_route_used := route_used result;
     resp_pair_address := pair_address result;
     resp_timestamp := timestamp |}.

(** The error raised for a chain that is not in [CHAIN_CONFIG]. *)
Definition unsupported_chain (chain_id : Z) : exn :=
  http_exception 400
    ("Chain " +:+ py_str_int chain_id +:+ " not supported. Supported: "
     +:+ py_repr_int_list (dict_keys CHAIN_CONFIG)).

(** The error raised for an amount that [int()] rejects. *)
Definition invalid_amount (amount_in : string) : exn :=
  http_exception 400
    ("Invalid amount_in: " +:+ amount_in +:+ ". Must be a valid integer in wei.").

(** The entry that one hop adds to [hop_details]. *)
Definition hop_detail (token_in token_out : string) (result : SlippageResult)
    : HopDetail :=
  {| hop_token_in := token_in;
     hop_token_out := token_out;
     hop_slippage_bps := min_safe_slip_bps result;
     hop_pair_address := pair_address result |}.

(** Every entry of the registry is found again under its own name. *)
Definition registry_entry_ok
    (factories : list (string * string)) (entry : string * string) : bool :=
  match dict_get (lower (fst entry)) factories with
  | Some f => String.eqb f (snd entry) && truthy f
  | None => false
  end.

Definition registry_ok : bool :=
  forallb (fun cf => forallb (registry_entry_ok (snd cf)) (snd cf))
    DEX_FACTORIES.

(** * Properties *)

(** ** Results and the monad *)

Lemma rbind_ok {A B} (r : result A) (f : A -> result B) (b : B) :
  rbind r f = Ok b <-> exists a, r = Ok a /\ f a = Ok b.
Proof.
  destruct r as [a|e]; simpl; split.
  - intros Hf. exists a. auto.
  - intros (a' & Ha & Hf). congruence.
  - discriminate.
  - intros (a' & Ha & _). discriminate.
Qed.

Lemma bind_ok_l {S A B} (m : M S A) (f : A -> M S B) s a s' :
  m s = (Ok a, s') -> bind m f s = f a s'.
Proof. unfold bind. intros ->. reflexivity. Qed.

Lemma bind_raise_l {S A B} (m : M S A) (f : A -> M S B) s e s' :
  m s = (Raise e, s') -> bind m f s = (Raise e, s').
Proof. unfold bind. intros ->. reflexivity. Qed.

(** Case analysis on the innermost stage of a monadic computation: a
    scrutinee that contains no further case analysis. *)
Ltac case_stage :=
  match goal with
  | |- context [match ?x with _ => _ end] =>
      lazymatch x with
      | context [match _ with _ => _ end] => fail
      | _ => destruct x; cbv beta
      end
  end.

Ltac case_stage_eq :=
  match goal with
  | |- context [match ?x with _ => _ end] =>
      lazymatch x with
      | context [match _ with _ => _ end] => fail
      | _ => destruct x eqn:?; cbv beta
      end
  end.

(** A handler that returns a value makes the whole [try] return. *)
Lemma try_except_total {S A} (m : M S A) (d : A) s :
  exists a s', try_except m (fun _ => ret d) s = (Ok a, s').
Proof.
  unfold try_except, ret. destruct (m s) as [[a|e] s']; eauto.
Qed.

(** ** The literals are the binary64 values Python reads *)

Example literal_0_01 : PyFloat.int_true_div 1 100 = Ok PyFloat.c0_01.
Proof. reflexivity. Qed.

Example literal_1_5 : PyFloat.int_true_div 3 2 = Ok PyFloat.c1_5.
Proof. reflexivity. Qed.

Example literal_10 : PyFloat.of_int 10 = Ok PyFloat.c10.
Proof. reflexivity. Qed.

Example literal_100 : PyFloat.of_int 100 = Ok PyFloat.c100.
Proof. reflexivity. Qed.

(** ** Constant-product output: [calculate_output_amount] *)

Lemma py_floordiv_ok a b : b <> 0 -> py_floordiv a b = Ok (a / b).
Proof. unfold py_floordiv. intros Hb. destruct (Z.eqb_spec b 0); congruence. Qed.

Lemma py_floordiv_zero a :
  py_floordiv a 0
  = Raise (Exn ZeroDivisionError "integer division or modulo by zero").
Proof. reflexivity. Qed.

(** The division raises exactly when the denominator is zero. *)
Lemma calculate_output_amount_raises amount_in reserve_in reserve_out fee_bps :
  is_ok (calculate_output_amount amount_in reserve_in reserve_out fee_bps)
  = false
  <-> reserve_in * 10000 + amount_in * (10000 - fee_bps) = 0.
Proof.
  unfold calculate_output_amount, py_floordiv.
  destruct (Z.eqb_spec (reserve_in * 10000 + amount_in * (10000 - fee_bps)) 0);
    simpl; split; intros; congruence.
Qed.

Lemma calculate_output_amount_value amount_in reserve_in reserve_out fee_bps :
  reserve_in * 10000 + amount_in * (10000 - fee_bps) <> 0 ->
  calculate_output_amount amount_in reserve_in reserve_out fee_bps
  = Ok (amount_in * (10000 - fee_bps) * reserve_out
        / (reserve_in * 10000 + amount_in * (10000 - fee_bps))).
Proof. intros Hd. unfold calculate_output_amount. now apply py_floordiv_ok. Qed.

(** Floor division is monotone along increasing fractions. *)
Lemma floor_div_le n1 d1 n2 d2 :
  0 < d1 -> 0 < d2 -> n1 * d2 <= n2 * d1 -> n1 / d1 <= n2 / d2.
Proof.
  intros Hd1 Hd2 Hcross.
  apply Z.div_le_lower_bound; [lia|].
  pose proof (Z.mul_div_le n1 d1 Hd1) as Hq.
  assert (Hle : d1 * (d2 * (n1 / d1)) <= d1 * n2) by nia.
  apply Z.mul_le_mono_pos_l in Hle; lia.
Qed.

(** C5, as stated, fails at [amount_in = 0]: the output is 0 and so is
    [amount_in * reserve_out / reserve_in], so the output is not strictly
    below it. *)
Lemma output_amount_not_strict_at_zero :
  ~ (forall amount_in reserve_in reserve_out fee_bps out,
       0 < reserve_in -> 0 < reserve_out -> 0 < fee_bps ->
       calculate_output_amount amount_in reserve_in reserve_out fee_bps
       = Ok out ->
       out * reserve_in < amount_in * reserve_out).
Proof.
  intros Hclaim.
  specialize (Hclaim 0 1 1 30 0).
  assert (Hout : calculate_output_amount 0 1 1 30 = Ok 0) by reflexivity.
  specialize (Hclaim ltac:(lia) ltac:(lia) ltac:(lia) Hout). lia.
Qed.

(** Outside the domain of amounts and fees, monotonicity is lost as well. *)
Example output_amount_negative_amount :
  calculate_output_amount (-2) 1 1 30 = Ok 2
  /\ calculate_output_amount 0 1 1 30 = Ok 0.
Proof. split; reflexivity. Qed.

Example output_amount_fee_above_10000 :
  calculate_output_amount 1 1 1 10030 = Ok (-1)
  /\ calculate_output_amount 2 1 1 10030 = Ok (-1)
  /\ calculate_output_amount 300 1 1 10030 = Ok (-9).
Proof. repeat split; reflexivity. Qed.

(** C5 (amended): for positive reserves and a fee of 0..10000 bps
    [calculate_output_amount] returns, is monotonically non-decreasing in
    [amount_in] over non-negative amounts, and for a positive amount and a
    positive fee its result is strictly below
    [amount_in * reserve_out / reserve_in] (compared over the rationals:
    [out * reserve_in < amount_in * reserve_out]). *)
Theorem calculate_output_amount_monotone_bounded
    (a1 a2 reserve_in reserve_out fee_bps : Z) :
  0 < reserve_in -> 0 < reserve_out -> 0 <= fee_bps <= 10000 ->
  0 <= a1 <= a2 ->
  exists o1 o2,
    calculate_output_amount a1 reserve_in reserve_out fee_bps = Ok o1
    /\ calculate_output_amount a2 reserve_in reserve_out fee_bps = Ok o2
    /\ o1 <= o2
    /\ (0 < fee_bps -> 0 < a2 -> o2 * reserve_in < a2 * reserve_out).
Proof.
  intros Hri Hro Hfee Ha.
  set (f := 10000 - fee_bps).
  assert (Hf : 0 <= f <= 10000) by (unfold f; lia).
  assert (Hx1 : 0 <= a1 * f) by nia.
  assert (Hx2 : a1 * f <= a2 * f) by nia.
  exists (a1 * f * reserve_out / (reserve_in * 10000 + a1 * f)),
         (a2 * f * reserve_out / (reserve_in * 10000 + a2 * f)).
  split; [apply calculate_output_amount_value; fold f; lia|].
  split; [apply calculate_output_amount_value; fold f; lia|].
  split.
  - apply floor_div_le; [lia | lia |].
    set (x1 := a1 * f) in *. set (x2 := a2 * f) in *.
    assert (Hc : x1 * (reserve_in * 10000) <= x2 * (reserve_in * 10000)) by nia.
    nia.
  - intros Hfee_pos Ha2.
    set (x2 := a2 * f) in *.
    set (d := reserve_in * 10000 + x2).
    assert (Hd : 0 < d) by (unfold d; lia).
    pose proof (Z.mul_div_le (x2 * reserve_out) d Hd) as Hq.
    set (q := x2 * reserve_out / d) in *.
    assert (Hq0 : 0 <= q) by (apply Z.div_pos; nia).
    assert (Hx2f : x2 < a2 * 10000) by (unfold x2, f; nia).
    assert (Hb : q * (reserve_in * 10000) <= x2 * reserve_out) by (unfold d in Hq; nia).
    nia.
Qed.

Lemma calculate_output_amount_monotone_bounded_witness :
  exists o1 o2,
    calculate_output_amount 1000 50000 80000 30 = Ok o1
    /\ calculate_output_amount 2000 50000 80000 30 = Ok o2
    /\ o1 <= o2
    /\ (0 < 30 -> 0 < 2000 -> o2 * 50000 < 2000 * 80000).
Proof.
  apply (calculate_output_amount_monotone_bounded 1000 2000 50000 80000 30);
    lia.
Defined.

(** The fee is in basis points, 0..10000. For a fee above that range the
    fee factor is negative and the denominator can vanish on a pool that is
    not empty: [1 * 10000 + 1 * (10000 - 20000)] is 0. *)
Lemma output_amount_division_fee_above_10000 :
  ~ (forall amount_in reserve_in reserve_out fee_bps,
       0 <= amount_in -> 0 <= reserve_in -> 0 <= reserve_out -> 0 <= fee_bps ->
       ~ (reserve_in = 0 /\ amount_in * (10000 - fee_bps) = 0) ->
       is_ok (calculate_output_amount amount_in reserve_in reserve_out fee_bps)
       = true).
Proof.
  intros Hclaim.
  specialize (Hclaim 1 1 1 20000
                ltac:(lia) ltac:(lia) ltac:(lia) ltac:(lia) ltac:(lia)).
  discriminate Hclaim.
Qed.

(** C10: the integer division of [calculate_output_amount] is
    unguarded. With [reserve_in = 0] and
    [amount_in * (10000 - fee_bps) = 0] it raises [ZeroDivisionError]; for
    all other non-negative inputs, the fee being in basis points
    ([0 <= fee_bps <= 10000]), it returns the floor quotient. *)
Theorem calculate_output_amount_division
    (amount_in reserve_in reserve_out fee_bps : Z) :
  0 <= amount_in -> 0 <= reserve_in -> 0 <= reserve_out ->
  0 <= fee_bps <= 10000 ->
  (reserve_in = 0 /\ amount_in * (10000 - fee_bps) = 0 ->
   calculate_output_amount amount_in reserve_in reserve_out fee_bps
   = Raise (Exn ZeroDivisionError "integer division or modulo by zero"))
  /\ (~ (reserve_in = 0 /\ amount_in * (10000 - fee_bps) = 0) ->
      calculate_output_amount amount_in reserve_in reserve_out fee_bps
      = Ok (amount_in * (10000 - fee_bps) * reserve_out
            / (reserve_in * 10000 + amount_in * (10000 - fee_bps)))).
Proof.
  intros Ha Hri Hro Hfee. split.
  - intros [-> Hx]. unfold calculate_output_amount. rewrite Hx. reflexivity.
  - intros Hother. apply calculate_output_amount_value.
    assert (0 <= amount_in * (10000 - fee_bps)) by nia. lia.
Qed.

Lemma calculate_output_amount_division_witness :
  calculate_output_amount 0 0 7 30
  = Raise (Exn ZeroDivisionError "integer division or modulo by zero")
  /\ calculate_output_amount 1000 50000 80000 30 = Ok 1564.
Proof.
  split.
  - apply (proj1 (calculate_output_amount_division 0 0 7 30
                    ltac:(lia) ltac:(lia) ltac:(lia) ltac:(lia))). lia.
  - apply (proj2 (calculate_output_amount_division 1000 50000 80000 30
                    ltac:(lia) ltac:(lia) ltac:(lia) ltac:(lia))). lia.
Defined.

(** ** Linear price impact: [calculate_price_impact] *)

Lemma int_true_div_zero_num (b : Z) :
  0 < b -> PyFloat.int_true_div 0 b = Ok PyFloat.zero.
Proof. destruct b; try lia. reflexivity. Qed.

Lemma int_true_div_not_zero_division (a b : Z) (e : exn) :
  b <> 0 -> PyFloat.int_true_div a b = Raise e ->
  exn_kind_of e = OverflowError.
Proof.
  intros Hb. unfold PyFloat.int_true_div.
  destruct b as [|pb|pb]; [congruence| |];
    (destruct a as [|pa|pa]; [discriminate| |]);
    match goal with
    | |- context [SFdiv_core_binary ?p ?m ?x ?ex ?y ?ey] =>
        destruct (SFdiv_core_binary p m x ex y ey) as [[q e'] l]
    end;
    match goal with
    | |- context [binary_round_aux ?p ?m ?s ?q ?e0 ?l] =>
        destruct (binary_round_aux p m s q e0 l)
    end; intros Heq; inversion Heq; reflexivity.
Qed.

Lemma mul_int_100 (x : float) :
  PyFloat.mul_int x 100 = Ok (PyFloat.mul x PyFloat.c100).
Proof. reflexivity. Qed.

(** C6: [calculate_price_impact] returns 0.0 when [amount_in = 0] and
    [reserve_in > 0], returns the sentinel 100.0 when [reserve_in = 0]
    whatever the other arguments, and never fails with a division by
    zero. *)
Theorem calculate_price_impact_edge_cases
    (amount_in reserve_in reserve_out : Z) :
  (0 < reserve_in ->
   calculate_price_impact 0 reserve_in reserve_out = Ok PyFloat.zero)
  /\ calculate_price_impact amount_in 0 reserve_out = Ok PyFloat.c100
  /\ (forall e,
        calculate_price_impact amount_in reserve_in reserve_out = Raise e ->
        exn_kind_of e <> ZeroDivisionError).
Proof.
  split; [|split].
  - intros Hri. unfold calculate_price_impact.
    destruct (Z.eqb_spec reserve_in 0) as [->|_]; [lia|].
    rewrite (int_true_div_zero_num _ Hri). reflexivity.
  - reflexivity.
  - intros e. unfold calculate_price_impact.
    destruct (Z.eqb_spec reserve_in 0) as [->|Hne]; [discriminate|].
    destruct (PyFloat.int_true_div amount_in reserve_in) as [q|e'] eqn:Hdiv;
      simpl.
    + rewrite mul_int_100. discriminate.
    + intros Heq. inversion Heq; subst e'.
      rewrite (int_true_div_not_zero_division _ _ _ Hne Hdiv). discriminate.
Qed.

Lemma calculate_price_impact_edge_cases_witness :
  calculate_price_impact 0 (1000 * 10 ^ 18) (2000000 * 10 ^ 18)
  = Ok PyFloat.zero.
Proof.
  apply (proj1 (calculate_price_impact_edge_cases
                  0 (1000 * 10 ^ 18) (2000000 * 10 ^ 18))).
  reflexivity.
Defined.

(** ** Liquidity depth: [estimate_liquidity_depth] *)

(** C7 at two inputs. [recommended_max_trade] is computed in binary64:
    [reserve_in] is rounded to a float, multiplied by the float nearest to
    0.01 and truncated. At [reserve_in = 9007199254740999] the code returns
    90071992547410, one more than the integer floor 90071992547409 of a
    hundredth (and more than 1% of the reserve); at
    [reserve_in = 10^21 + 70000] it returns 10000000000000002048 where the
    floor is 10000000000000000700. *)
Theorem recommended_max_trade_not_exact_floor :
  (exists d,
     estimate_liquidity_depth 9007199254740999 (2000000 * 10 ^ 18) 18 18 = Ok d
     /\ ld_recommended_max_trade d = 90071992547410
     /\ 9007199254740999 / 100 = 90071992547409
     /\ 9007199254740999 < 100 * ld_recommended_max_trade d)
  /\ (exists d,
        estimate_liquidity_depth (10 ^ 21 + 70000) (2000000 * 10 ^ 18) 18 18
        = Ok d
        /\ ld_recommended_max_trade d = 10000000000000002048
        /\ (10 ^ 21 + 70000) / 100 = 10000000000000000700).
Proof.
  split; eexists; (split; [vm_compute; reflexivity|]);
    repeat split; vm_compute; reflexivity.
Qed.

(** Where no rounding occurs the float product does give the floor. *)
Example recommended_max_trade_spec_example :
  exists d,
    estimate_liquidity_depth (1000 * 10 ^ 18) (2000000 * 10 ^ 18) 18 18 = Ok d
    /\ ld_recommended_max_trade d = 1000 * 10 ^ 18 / 100
    /\ ld_liquidity_score d = high.
Proof. eexists. split; [vm_compute; reflexivity|]. split; reflexivity. Qed.

(** ** Trade statistics: [analyze_trade_sizes] *)

Section TradeStatistics.
Context {World : Type} `{External World}.

Lemma positive_sizes_nil (swaps : list Swap) :
  (forall s, s ∈ swaps -> trade_size s <= 0) -> positive_sizes swaps = [].
Proof.
  unfold positive_sizes. induction swaps as [|s swaps IH]; intros Hall.
  - reflexivity.
  - rewrite filter_cons.
    destruct (decide (0 < trade_size s)) as [Hpos|_].
    + specialize (Hall s ltac:(left)). lia.
    + apply IH. intros s' Hs'. apply Hall. now right.
Qed.

Lemma analyze_trade_sizes_unfold (swaps : list Swap) :
  analyze_trade_sizes swaps =
  match swaps with
  | [] => Ok (zero_metrics 0)
  | _ =>
      match positive_sizes swaps with
      | [] => Ok (zero_metrics (Z.of_nat (length swaps)))
      | _ =>
          try! p50 := int_percentile (positive_sizes swaps) 50 in
          try! p95 := int_percentile (positive_sizes swaps) 95 in
          try! p99 := int_percentile (positive_sizes swaps) 99 in
          try! mean_size := np_mean (positive_sizes swaps) in
          try! std_size := np_std (positive_sizes swaps) in
          Ok {| trade_size_p50 := p50;
                trade_size_p95 := p95;
                trade_size_p99 := p99;
                vm_volatility_factor :=
                  if PyFloat.ltb PyFloat.zero mean_size
                  then PyFloat.div std_size mean_size
                  else PyFloat.zero;
                total_swaps := Z.of_nat (length swaps) |}
      end
  end.
Proof. reflexivity. Qed.

(** C9: on the empty list [analyze_trade_sizes] returns zero percentiles,
    volatility 0.0 and [total_swaps = 0]; whenever it returns,
    [total_swaps] is the length of the list passed in (not of the filtered
    list); when no swap has a positive [trade_size] it returns zero
    percentiles and volatility 0.0; and it returns whenever numpy answers
    with finite percentiles, a mean and a deviation. *)
Theorem analyze_trade_sizes_counts (swaps : list Swap) :
  analyze_trade_sizes []
  = Ok {| trade_size_p50 := 0; trade_size_p95 := 0; trade_size_p99 := 0;
          vm_volatility_factor := PyFloat.zero; total_swaps := 0 |}
  /\ (forall m,
        analyze_trade_sizes swaps = Ok m ->
        total_swaps m = Z.of_nat (length swaps))
  /\ ((forall s, s ∈ swaps -> trade_size s <= 0) ->
      analyze_trade_sizes swaps
      = Ok {| trade_size_p50 := 0; trade_size_p95 := 0; trade_size_p99 := 0;
              vm_volatility_factor := PyFloat.zero;
              total_swaps := Z.of_nat (length swaps) |})
  /\ (is_ok (int_percentile (positive_sizes swaps) 50) = true ->
      is_ok (int_percentile (positive_sizes swaps) 95) = true ->
      is_ok (int_percentile (positive_sizes swaps) 99) = true ->
      is_ok (np_mean (positive_sizes swaps)) = true ->
      is_ok (np_std (positive_sizes swaps)) = true ->
      exists m,
        analyze_trade_sizes swaps = Ok m
        /\ total_swaps m = Z.of_nat (length swaps)).
Proof.
  split; [reflexivity|]. split; [|split].
  - intros m. rewrite analyze_trade_sizes_unfold.
    destruct swaps as [|s swaps']; [intros [= <-]; reflexivity|].
    destruct (positive_sizes (s :: swaps')) as [|z zs];
      [intros [= <-]; reflexivity|].
    intros Hm.
    apply rbind_ok in Hm as (p50 & _ & Hm).
    apply rbind_ok in Hm as (p95 & _ & Hm).
    apply rbind_ok in Hm as (p99 & _ & Hm).
    apply rbind_ok in Hm as (mean_size & _ & Hm).
    apply rbind_ok in Hm as (std_size & _ & Hm).
    injection Hm as <-. reflexivity.
  - intros Hall. rewrite analyze_trade_sizes_unfold.
    rewrite (positive_sizes_nil _ Hall).
    destruct swaps; reflexivity.
  - intros H50 H95 H99 Hmean Hstd. rewrite analyze_trade_sizes_unfold.
    destruct swaps as [|s swaps']; [eexists; split; reflexivity|].
    destruct (positive_sizes (s :: swaps')) as [|z zs];
      [eexists; split; reflexivity|].
    destruct (int_percentile (z :: zs) 50); [|discriminate].
    destruct (int_percentile (z :: zs) 95); [|discriminate].
    destruct (int_percentile (z :: zs) 99); [|discriminate].
    destruct (np_mean (z :: zs)); [|discriminate].
    destruct (np_std (z :: zs)); [|discriminate].
    eexists. split; reflexivity.
Qed.

End TradeStatistics.

Lemma analyze_trade_sizes_counts_witness :
  analyze_trade_sizes (H := Scripted.external) [Scripted.idle_swap 7; Scripted.idle_swap 9]
  = Ok {| trade_size_p50 := 0; trade_size_p95 := 0; trade_size_p99 := 0;
          vm_volatility_factor := PyFloat.zero; total_swaps := 2 |}
  /\ exists m,
       analyze_trade_sizes (H := Scripted.external)
         [Scripted.sized_swap 1 10; Scripted.idle_swap 2; Scripted.sized_swap 3 20; Scripted.sized_swap 4 20;
          Scripted.sized_swap 5 30; Scripted.sized_swap 6 1000] = Ok m
       /\ total_swaps m = 6.
Proof.
  split.
  - apply (proj1 (proj2 (proj2
             (analyze_trade_sizes_counts (H := Scripted.external)
                [Scripted.idle_swap 7; Scripted.idle_swap 9])))).
    intros s Hs. repeat (apply elem_of_cons in Hs as [->|Hs]; [simpl; lia|]).
    inversion Hs.
  - apply (proj2 (proj2 (proj2
             (analyze_trade_sizes_counts (H := Scripted.external)
                [Scripted.sized_swap 1 10; Scripted.idle_swap 2; Scripted.sized_swap 3 20; Scripted.sized_swap 4 20;
                 Scripted.sized_swap 5 30; Scripted.sized_swap 6 1000]))));
      vm_compute; reflexivity.
Defined.

(** ** Route discovery *)

Lemma dict_get_elem_of {K V} `{EqDecision K} (key : K) (d : list (K * V)) v :
  dict_get key d = Some v -> (key, v) ∈ d.
Proof.
  induction d as [|[k' v'] d IH]; simpl; [discriminate|].
  destruct (decide (key = k')) as [->|_].
  - intros [= ->]. left.
  - intros Hd. right. auto.
Qed.

Lemma registry_ok_true : registry_ok = true.
Proof. vm_compute. reflexivity. Qed.

Lemma factories_of_entry (chain_id : Z) (dex_name factory_address : string) :
  (dex_name, factory_address) ∈ factories_of chain_id ->
  dict_get (lower dex_name) (factories_of chain_id) = Some factory_address
  /\ truthy factory_address = true.
Proof.
  unfold factories_of.
  destruct (dict_get chain_id DEX_FACTORIES) as [factories|] eqn:Hget; simpl.
  - intros Hin. apply dict_get_elem_of in Hget.
    pose proof registry_ok_true as Hok. unfold registry_ok in Hok.
    rewrite forallb_forall in Hok.
    apply list_elem_of_In in Hget. specialize (Hok _ Hget). simpl in Hok.
    rewrite forallb_forall in Hok.
    apply list_elem_of_In in Hin. specialize (Hok _ Hin).
    unfold registry_entry_ok in Hok. simpl in Hok.
    destruct (dict_get (lower dex_name) factories) as [f|]; [|discriminate].
    apply andb_true_iff in Hok as [Heq Ht].
    apply String.eqb_eq in Heq. subst f. auto.
  - intros Hin. inversion Hin.
Qed.

Section RouteDiscovery.
Context {World : Type} `{External World}.

Lemma get_w3_total (chain_id : Z) (s : Self World) :
  exists o s', get_w3 chain_id s = (Ok o, s').
Proof.
  unfold get_w3.
  destruct (w3_connections s !! chain_id); [eauto|].
  destruct (get_rpc_url (world s) chain_id) as [url|]; [|eauto].
  destruct (negb (truthy url)); [eauto|].
  destruct (w3_is_connected url (world s)) as [[[]|] w]; eauto.
Qed.

(** A lookup never raises: whatever goes wrong, it answers [None]. *)
Lemma find_pair_on_dex_total chain_id dex_name token_in token_out s :
  exists r s', find_pair_on_dex chain_id dex_name token_in token_out s
               = (Ok r, s').
Proof. unfold find_pair_on_dex. apply try_except_total. Qed.

Lemma find_pair_on_dex_no_connection chain_id dex_name token_in token_out s s1 :
  get_w3 chain_id s = (Ok None, s1) ->
  find_pair_on_dex chain_id dex_name token_in token_out s = (Ok None, s1).
Proof.
  intros Hw3. unfold find_pair_on_dex, try_except.
  rewrite (bind_ok_l _ _ _ _ _ Hw3). reflexivity.
Qed.

(** With a connection and a registered factory, the lookup returns what the
    factory answers, except that the zero address and every failure become
    [None]. *)
Lemma find_pair_on_dex_via_factory
    chain_id dex_name token_in token_out s w3 s1 factory_address :
  get_w3 chain_id s = (Ok (Some w3), s1) ->
  dict_get (lower dex_name) (factories_of chain_id) = Some factory_address ->
  truthy factory_address = true ->
  find_pair_on_dex chain_id dex_name token_in token_out s =
  match factory_answer w3 factory_address token_in token_out s1 with
  | (Ok p, s2) =>
      (Ok (if String.eqb p ZERO_ADDRESS then None else Some p), s2)
  | (Raise _, s2) => (Ok None, s2)
  end.
Proof.
  intros Hw3 Hget Htruthy. unfold find_pair_on_dex, try_except.
  rewrite (bind_ok_l _ _ _ _ _ Hw3). rewrite Hget, Htruthy. simpl.
  unfold factory_answer, bind, lift, remote.
  destruct (to_checksum_address factory_address); [|reflexivity].
  destruct (to_checksum_address token_in); [|reflexivity].
  destruct (to_checksum_address token_out); [|reflexivity].
  destruct (factory_getPair _ _ _ _ _) as [[p|e] w]; [|reflexivity].
  destruct (String.eqb p ZERO_ADDRESS); reflexivity.
Qed.

Lemma find_pair_on_dex_nonzero chain_id dex_name token_in token_out s p s' :
  find_pair_on_dex chain_id dex_name token_in token_out s = (Ok (Some p), s') ->
  p <> ZERO_ADDRESS.
Proof.
  unfold find_pair_on_dex, try_except, bind, ret, lift, remote.
  destruct (get_w3 chain_id s) as [[[w3|]|] s1]; try discriminate.
  destruct (dict_get _ _) as [fa|]; try discriminate.
  destruct (negb (truthy fa)); try discriminate.
  destruct (to_checksum_address fa); try discriminate.
  destruct (to_checksum_address token_in); try discriminate.
  destruct (to_checksum_address token_out); try discriminate.
  destruct (factory_getPair _ _ _ _ _) as [[q|e] w]; try discriminate.
  destruct (String.eqb_spec q ZERO_ADDRESS); try discriminate.
  intros [= <- _]. assumption.
Qed.

(** The scan over the registry stops at the first exchange with a pair. *)
Lemma find_best_route_loop_first_found chain_id token_in token_out items :
  forall s, exists r s',
    find_best_route_loop chain_id token_in token_out items s = (Ok r, s')
    /\ match r with
       | Some route =>
           exists before dex_name factory_address after s1 p,
             items = before ++ (dex_name, factory_address) :: after
             /\ scanned_without_pair chain_id token_in token_out before s s1
             /\ find_pair_on_dex chain_id dex_name token_in token_out s1
                = (Ok (Some p), s')
             /\ truthy p = true
             /\ route = {| route_pair_address := p;
                           route_dex_name := dex_name;
                           route_factory_address := Some factory_address |}
       | None => scanned_without_pair chain_id token_in token_out items s s'
       end.
Proof.
  induction items as [|[dex_name factory_address] items IH]; intros s.
  - exists None, s. split; [reflexivity|constructor].
  - destruct (find_pair_on_dex_total chain_id dex_name token_in token_out s)
      as (r & s1 & Hlookup).
    cbn [find_best_route_loop]. rewrite (bind_ok_l _ _ _ _ _ Hlookup).
    assert (Hskip : no_pair r ->
      exists r' s',
        find_best_route_loop chain_id token_in token_out items s1 = (Ok r', s')
        /\ match r' with
           | Some route =>
               exists before dex' fa' after s2 p,
                 (dex_name, factory_address) :: items
                 = before ++ (dex', fa') :: after
                 /\ scanned_without_pair chain_id token_in token_out before s s2
                 /\ find_pair_on_dex chain_id dex' token_in token_out s2
                    = (Ok (Some p), s')
                 /\ truthy p = true
                 /\ route = {| route_pair_address := p;
                               route_dex_name := dex';
                               route_factory_address := Some fa' |}
           | None =>
               scanned_without_pair chain_id token_in token_out
                 ((dex_name, factory_address) :: items) s s'
           end).
    { intros Hnone. destruct (IH s1) as (r' & s' & Hloop & Hr').
      exists r', s'. split; [exact Hloop|].
      destruct r' as [route|].
      - destruct Hr' as (before & dex' & fa' & after & s2 & p
                         & -> & Hscan & Hfound & Hp & ->).
        exists ((dex_name, factory_address) :: before), dex', fa', after, s2, p.
        repeat split; try assumption.
        econstructor; eassumption.
      - econstructor; eassumption. }
    destruct r as [p|].
    + destruct (truthy p) eqn:Hp.
      * exists (Some {| route_pair_address := p;
                        route_dex_name := dex_name;
                        route_factory_address := Some factory_address |}), s1.
        split; [reflexivity|].
        exists [], dex_name, factory_address, items, s, p.
        repeat split; try assumption. constructor.
      * apply Hskip. exact Hp.
    + apply Hskip. exact I.
Qed.

(** An empty hint is no hint. *)
Lemma find_best_route_empty_hint chain_id token_in token_out :
  find_best_route chain_id token_in token_out (Some "")
  = find_best_route chain_id token_in token_out None.
Proof. reflexivity. Qed.

(** C4: without a hint, [find_best_route] looks the chain's exchanges up
    in the registry's enumeration order and returns the route of the first
    one whose lookup yields a non-zero pair address; a lookup never raises,
    and a failed connection, a failed remote call and the zero address all
    count as no pair on that exchange; in particular, with the registry
    starting with E1 (no pair) and E2 (pair [p]), the result is E2's pair
    address and name. *)
Theorem find_best_route_first_found
    (chain_id : Z) (token_in token_out : string) (s : Self World) :
  (exists r s',
     find_best_route chain_id token_in token_out None s = (Ok r, s')
     /\ match r with
        | Some route =>
            exists before dex_name factory_address after s1 p,
              factories_of chain_id
              = before ++ (dex_name, factory_address) :: after
              /\ scanned_without_pair chain_id token_in token_out before s s1
              /\ find_pair_on_dex chain_id dex_name token_in token_out s1
                 = (Ok (Some p), s')
              /\ truthy p = true /\ p <> ZERO_ADDRESS
              /\ route = {| route_pair_address := p;
                            route_dex_name := dex_name;
                            route_factory_address := Some factory_address |}
        | None =>
            scanned_without_pair chain_id token_in token_out
              (factories_of chain_id) s s'
        end)
  /\ (forall dex_name factory_address,
        (dex_name, factory_address) ∈ factories_of chain_id ->
        exists o s1,
          get_w3 chain_id s = (Ok o, s1)
          /\ find_pair_on_dex chain_id dex_name token_in token_out s =
             match o with
             | None => (Ok None, s1)
             | Some w3 =>
                 match factory_answer w3 factory_address token_in token_out s1
                 with
                 | (Ok p, s2) =>
                     (Ok (if String.eqb p ZERO_ADDRESS then None else Some p),
                      s2)
                 | (Raise _, s2) => (Ok None, s2)
                 end
             end)
  /\ (forall e1 f1 e2 f2 rest s1 s2 p,
        factories_of chain_id = (e1, f1) :: (e2, f2) :: rest ->
        find_pair_on_dex chain_id e1 token_in token_out s = (Ok None, s1) ->
        find_pair_on_dex chain_id e2 token_in token_out s1 = (Ok (Some p), s2) ->
        truthy p = true ->
        find_best_route chain_id token_in token_out None s
        = (Ok (Some {| route_pair_address := p;
                       route_dex_name := e2;
                       route_factory_address := Some f2 |}), s2)).
Proof.
  split; [|split].
  - destruct (find_best_route_loop_first_found chain_id token_in token_out
                (factories_of chain_id) s) as (r & s' & Hloop & Hr).
    exists r, s'. split; [exact Hloop|].
    destruct r as [route|]; [|exact Hr].
    destruct Hr as (before & dex_name & fa & after & s1 & p
                    & Hitems & Hscan & Hfound & Hp & Hroute).
    exists before, dex_name, fa, after, s1, p.
    repeat split; try assumption.
    eapply find_pair_on_dex_nonzero; eassumption.
  - intros dex_name factory_address Hin.
    destruct (factories_of_entry _ _ _ Hin) as [Hget Htruthy].
    destruct (get_w3_total chain_id s) as (o & s1 & Hw3).
    exists o, s1. split; [exact Hw3|].
    destruct o as [w3|].
    + eapply find_pair_on_dex_via_factory; eassumption.
    + apply find_pair_on_dex_no_connection. exact Hw3.
  - intros e1 f1 e2 f2 rest s1 s2 p Hreg H1 H2 Hp.
    unfold find_best_route. rewrite Hreg.
    cbn [find_best_route_loop].
    rewrite (bind_ok_l _ _ _ _ _ H1). rewrite (bind_ok_l _ _ _ _ _ H2).
    rewrite Hp. reflexivity.
Qed.

End RouteDiscovery.

Lemma find_best_route_first_found_witness :
  fst (find_best_route 1 Scripted.WETH Scripted.USDC None
         (Scripted.fresh_self Scripted.sushi_only))
  = Ok (Some {| route_pair_address := Scripted.POOL_A;
                route_dex_name := "sushiswap";
                route_factory_address := Some Scripted.SUSHI_FACTORY |}).
Proof.
  pose (s := Scripted.fresh_self Scripted.sushi_only).
  pose (s1 := snd (find_pair_on_dex 1 "uniswap_v2"
                     Scripted.WETH Scripted.USDC s)).
  pose (s2 := snd (find_pair_on_dex 1 "sushiswap"
                     Scripted.WETH Scripted.USDC s1)).
  rewrite (proj2 (proj2 (find_best_route_first_found
                           1 Scripted.WETH Scripted.USDC s))
             "uniswap_v2" Scripted.UNI_FACTORY
             "sushiswap" Scripted.SUSHI_FACTORY [] s1 s2 Scripted.POOL_A).
  - reflexivity.
  - reflexivity.
  - vm_compute. reflexivity.
  - vm_compute. reflexivity.
  - reflexivity.
Defined.

(** ** The aggregation policy *)

Section Aggregation.
Context {World : Type} `{External World}.

Lemma bind_lift_ok {S A B} (r : result A) (f : A -> M S B) (s : S) (a : A) :
  r = Ok a -> bind (lift r) f s = f a s.
Proof. intros ->. reflexivity. Qed.

Lemma bind_lift_raise {S A B} (r : result A) (f : A -> M S B) (s : S) e :
  r = Raise e -> bind (lift r) f s = (Raise e, s).
Proof. intros ->. reflexivity. Qed.

Lemma bind_lift_Ok {S A B} (a : A) (f : A -> M S B) (s : S) :
  bind (lift (Ok a)) f s = f a s.
Proof. reflexivity. Qed.

Lemma bind_lift_Raise {S A B} (e : exn) (f : A -> M S B) (s : S) :
  bind (lift (Raise e)) f s = (Raise e, s).
Proof. reflexivity. Qed.

(** The pipeline never raises: every exception becomes [None]. *)
Lemma calculate_safe_slippage_total
    chain_id token_in token_out amount_in route_hint (c : Calculator World) :
  exists r c',
    calculate_safe_slippage chain_id token_in token_out amount_in route_hint c
    = (Ok r, c').
Proof. unfold calculate_safe_slippage. apply try_except_total. Qed.

Lemma clamp_range (x : Z) : 50 <= Spec.clamp x 50 5000 <= 5000.
Proof. unfold Spec.clamp. lia. Qed.

(** Whatever the pipeline obtained, a returned recommendation is clamped. *)
Lemma calculate_safe_slippage_range
    chain_id token_in token_out amount_in route_hint
    (c c' : Calculator World) (rec : SlippageResult) :
  calculate_safe_slippage chain_id token_in token_out amount_in route_hint c
  = (Ok (Some rec), c') ->
  50 <= min_safe_slip_bps rec <= 5000.
Proof.
  unfold calculate_safe_slippage, try_except, bind, ret, lift. cbv beta.
  repeat case_stage.
  all: intros Heq; inversion Heq; subst; cbn [min_safe_slip_bps]; lia.
Qed.

(** One pass through the pipeline, given what each stage obtained. *)
Lemma calculate_safe_slippage_stages
    chain_id token_in token_out amount_in route_hint
    (c c1 c2 c3 : Calculator World)
    route reserves price_impact_pct depth metrics :
  on_route_finder (find_best_route chain_id token_in token_out route_hint) c
  = (Ok (Some route), c1) ->
  on_pool_analyzer
    (get_pool_reserves chain_id (route_pair_address route) token_in token_out)
    c1 = (Ok (Some reserves), c2) ->
  calculate_price_impact amount_in (reserve_in reserves) (reserve_out reserves)
  = Ok price_impact_pct ->
  estimate_liquidity_depth (reserve_in reserves) (reserve_out reserves)
    default_decimals default_decimals = Ok depth ->
  on_trade_analyzer
    (get_volatility_metrics chain_id (route_pair_address route) 500) c2
  = (Ok metrics, c3) ->
  calculate_safe_slippage chain_id token_in token_out amount_in route_hint c =
  match Spec.price_impact_bps price_impact_pct with
  | Raise _ => (Ok None, c2)
  | Ok bps =>
      match Spec.base bps with
      | Raise _ => (Ok None, c3)
      | Ok b =>
          match Spec.trunc_mul (vm_volatility_factor metrics) 100 with
          | Raise _ => (Ok None, c3)
          | Ok vb =>
              (Ok (Some
                 {| min_safe_slip_bps :=
                      Spec.clamp
                        (b + vb
                         + Spec.liquidity_buffer (ld_liquidity_score depth)
                         + Spec.mev_buffer) 50 5000;
                    pool_depths :=
                      {| token_in_reserve := py_str_int (reserve_in reserves);
                         token_out_reserve := py_str_int (reserve_out reserves);
                         pd_reserve_in_tokens := reserve_in_tokens depth;
                         pd_reserve_out_tokens := reserve_out_tokens depth;
                         pd_liquidity_score :=
                           liquidity_score_str (ld_liquidity_score depth) |};
                    recent_trade_size_p95 := trade_size_p95 metrics;
                    price_impact_bps := bps;
                    volatility_factor :=
                      py_round (vm_volatility_factor metrics) 4;
                    recommended_max_trade := ld_recommended_max_trade depth;
                    route_used := route_dex_name route;
                    pair_address := route_pair_address route |}), c3)
          end
      end
  end.
Proof.
  intros Hroute Hres Hpct Hdepth Hvol.
  unfold calculate_safe_slippage, try_except.
  rewrite (bind_ok_l _ _ _ _ _ Hroute).
  rewrite (bind_ok_l _ _ _ _ _ Hres).
  rewrite (bind_lift_ok _ _ _ _ Hpct).
  unfold Spec.price_impact_bps, Spec.trunc_mul at 1.
  destruct (rbind (PyFloat.mul_int price_impact_pct 100) _) as [bps|e];
    [rewrite bind_lift_Ok | rewrite bind_lift_Raise; reflexivity].
  rewrite (bind_lift_ok _ _ _ _ Hdepth).
  rewrite (bind_ok_l _ _ _ _ _ Hvol).
  unfold Spec.base.
  destruct (rbind (PyFloat.int_mul bps PyFloat.c1_5) _) as [b|e];
    [rewrite bind_lift_Ok | rewrite bind_lift_Raise; reflexivity].
  unfold Spec.trunc_mul.
  destruct (rbind (PyFloat.mul_int (vm_volatility_factor metrics) 100) _)
    as [vb|e];
    [rewrite bind_lift_Ok | rewrite bind_lift_Raise; reflexivity].
  destruct depth as [? ? [] ?]; reflexivity.
Qed.

(** From a returned recommendation back to what the stages obtained. *)
Lemma calculate_safe_slippage_inversion
    chain_id token_in token_out amount_in route_hint
    (c c' : Calculator World) (rec : SlippageResult) :
  calculate_safe_slippage chain_id token_in token_out amount_in route_hint c
  = (Ok (Some rec), c') ->
  exists route reserves price_impact_pct depth metrics,
    pipeline_obtained chain_id token_in token_out amount_in route_hint c
      route reserves price_impact_pct depth metrics c'.
Proof.
  unfold calculate_safe_slippage, try_except, bind, ret, lift. cbv beta.
  repeat case_stage_eq; intros Heq; try discriminate Heq.
  unfold pipeline_obtained.
  eexists _, _, _, _, _, _, _.
  repeat split; try eassumption.
  inversion Heq; subst. eassumption.
Qed.

(** C1: for the route, reserves and volatility metrics obtained in the
    pipeline, the returned recommendation has
    [min_safe_slip_bps = clamp(trunc(price_impact_bps * 1.5)
    + trunc(volatility_factor * 100) + liquidity_buffer + 20, 50, 5000)]
    with [price_impact_bps = trunc(price_impact_percent * 100)] and the
    buffer 50 / 25 / 10 for low / medium / high, so that
    [min_safe_slip_bps] always lies in 50..5000; and the recommendation is
    returned whenever the stages succeed and these truncations are
    defined. *)
Theorem min_safe_slip_bps_policy
    chain_id token_in token_out amount_in route_hint (c : Calculator World) :
  (forall rec c',
     calculate_safe_slippage chain_id token_in token_out amount_in route_hint c
     = (Ok (Some rec), c') ->
     50 <= min_safe_slip_bps rec <= 5000
     /\ exists route reserves price_impact_pct depth metrics,
          pipeline_obtained chain_id token_in token_out amount_in route_hint c
            route reserves price_impact_pct depth metrics c'
          /\ Spec.price_impact_bps price_impact_pct
             = Ok (price_impact_bps rec)
          /\ Spec.min_safe_slip_bps price_impact_pct
               (vm_volatility_factor metrics) (ld_liquidity_score depth)
             = Ok (min_safe_slip_bps rec))
  /\ (forall route reserves price_impact_pct depth metrics c' v,
        pipeline_obtained chain_id token_in token_out amount_in route_hint c
          route reserves price_impact_pct depth metrics c' ->
        Spec.min_safe_slip_bps price_impact_pct
          (vm_volatility_factor metrics) (ld_liquidity_score depth) = Ok v ->
        exists rec,
          calculate_safe_slippage chain_id token_in token_out amount_in
            route_hint c = (Ok (Some rec), c')
          /\ min_safe_slip_bps rec = v).
Proof.
  split.
  - intros rec c' Hrec.
    destruct (calculate_safe_slippage_inversion _ _ _ _ _ _ _ _ Hrec)
      as (route & reserves & pct & depth & metrics & Hobtained).
    split.
    + eapply calculate_safe_slippage_range. exact Hrec.
    + exists route, reserves, pct, depth, metrics.
      split; [exact Hobtained|].
      destruct Hobtained as (c1 & c2 & Hroute & Hres & Hpct & Hdepth & Hvol).
      rewrite (calculate_safe_slippage_stages _ _ _ _ _ _ _ _ _ _ _ _ _ _
                 Hroute Hres Hpct Hdepth Hvol) in Hrec.
      unfold Spec.min_safe_slip_bps.
      destruct (Spec.price_impact_bps pct) as [bps|e];
        [cbn [rbind]|inversion Hrec].
      destruct (Spec.base bps) as [b|e]; [cbn [rbind]|inversion Hrec].
      destruct (Spec.trunc_mul (vm_volatility_factor metrics) 100) as [vb|e];
        [cbn [rbind]|inversion Hrec].
      inversion Hrec; subst. split; reflexivity.
  - intros route reserves pct depth metrics c' v
      (c1 & c2 & Hroute & Hres & Hpct & Hdepth & Hvol).
    rewrite (calculate_safe_slippage_stages _ _ _ _ _ _ _ _ _ _ _ _ _ _
               Hroute Hres Hpct Hdepth Hvol).
    unfold Spec.min_safe_slip_bps.
    destruct (Spec.price_impact_bps pct) as [bps|e];
      [cbn [rbind]|discriminate].
    destruct (Spec.base bps) as [b|e]; [cbn [rbind]|discriminate].
    destruct (Spec.trunc_mul (vm_volatility_factor metrics) 100) as [vb|e];
      [cbn [rbind]|discriminate].
    intros [= <-]. eexists. split; reflexivity.
Qed.

End Aggregation.

(** The truncations of the policy are defined exactly on finite products. *)
Lemma trunc_mul_defined (x y : float) (n : Z) :
  PyFloat.of_int n = Ok y ->
  is_ok (Spec.trunc_mul x n) = PyFloat.is_finite (PyFloat.mul x y).
Proof.
  intros Hn. unfold Spec.trunc_mul, PyFloat.mul_int. rewrite Hn.
  cbn [rbind]. destruct (PyFloat.mul x y); reflexivity.
Qed.

(** The worked example of the specification: 1% impact, no history, a deep
    pool. *)
Example policy_worked_example :
  Spec.min_safe_slip_bps (S754_finite false 4503599627370496 (-52))
    PyFloat.zero high = Ok 180.
Proof. reflexivity. Qed.

(** A finite price impact whose product with 100 is not finite yields no
    recommendation: [int()] raises on the infinite product. *)
Example policy_overflow_example :
  Spec.min_safe_slip_bps (SFmax_float PyFloat.prec PyFloat.emax)
    PyFloat.zero high
  = Raise (Exn OverflowError "cannot convert float infinity to integer").
Proof. vm_compute. reflexivity. Qed.

Lemma min_safe_slip_bps_policy_witness :
  exists rec c3,
    calculate_safe_slippage 1 Scripted.WETH Scripted.USDC (10 * 10 ^ 18) None
      (Scripted.fresh Scripted.sushi_only) = (Ok (Some rec), c3)
    /\ min_safe_slip_bps rec = 180.
Proof.
  set (c := Scripted.fresh Scripted.sushi_only).
  pose (route := {| route_pair_address := Scripted.POOL_A;
                    route_dex_name := "sushiswap";
                    route_factory_address := Some Scripted.SUSHI_FACTORY |}).
  pose (reserves := {| reserve_in := 1000 * 10 ^ 18;
                       reserve_out := 2000000 * 10 ^ 18;
                       token_in_address := Scripted.WETH;
                       token_out_address := Scripted.USDC;
                       pr_k := (1000 * 10 ^ 18) * (2000000 * 10 ^ 18) |}).
  pose (pct := S754_finite false 4503599627370496 (-52)).
  pose (depth := {| reserve_in_tokens :=
                      S754_finite false 8796093022208000 (-43);
                    reserve_out_tokens :=
                      S754_finite false 8589934592000000 (-32);
                    ld_liquidity_score := high;
                    ld_recommended_max_trade := 10 * 10 ^ 18 |}).
  pose (c1 := snd (on_route_finder
                     (find_best_route (H := Scripted.external)
                        1 Scripted.WETH Scripted.USDC None) c)).
  pose (c2 := snd (on_pool_analyzer
                     (get_pool_reserves (H := Scripted.external)
                        1 Scripted.POOL_A Scripted.WETH Scripted.USDC) c1)).
  pose (c3 := snd (on_trade_analyzer
                     (get_volatility_metrics (H := Scripted.external)
                        1 Scripted.POOL_A 500) c2)).
  assert (Hobtained :
    pipeline_obtained (H := Scripted.external)
      1 Scripted.WETH Scripted.USDC (10 * 10 ^ 18) None c
      route reserves pct depth (zero_metrics 0) c3).
  { exists c1, c2. repeat split; vm_compute; reflexivity. }
  destruct (proj2 (min_safe_slip_bps_policy (H := Scripted.external)
                     1 Scripted.WETH Scripted.USDC (10 * 10 ^ 18) None c)
              route reserves pct depth (zero_metrics 0) c3 180
              Hobtained ltac:(vm_compute; reflexivity))
    as (rec & Hrec & Hmin).
  exists rec, c3. split; assumption.
Defined.

(** ** Multi-hop paths *)

Section MultiHop.
Context {World : Type} `{External World}.

Lemma refetch_total chain_id pair token_in token_out (c : Calculator World) :
  exists o c',
    on_pool_analyzer (get_pool_reserves chain_id pair token_in token_out) c
    = (Ok o, c').
Proof.
  unfold on_pool_analyzer, get_pool_reserves.
  match goal with
  | |- context [try_except ?m ?h ?s] =>
      destruct (try_except_total m None s) as (o & s' & Heq)
  end.
  rewrite Heq. eauto.
Qed.

Lemma multi_hop_loop_length chain_id route :
  forall total current details (c c' : Calculator World) total' current' details',
    multi_hop_loop chain_id route total current details c
    = (Ok (Some (total', current', details')), c') ->
    length details' = (length details + length route)%nat.
Proof.
  induction route as [|[token_in token_out] route IH];
    intros total current details c c' total' current' details'.
  - intros [= _ _ <- _]. simpl. lia.
  - cbn [multi_hop_loop].
    destruct (calculate_safe_slippage_total chain_id token_in token_out
                current None c) as (r & c1 & Hr).
    rewrite (bind_ok_l _ _ _ _ _ Hr).
    destruct r as [result|]; [|discriminate].
    destruct (refetch_total chain_id (pair_address result) token_in token_out c1)
      as (o & c2 & Ho).
    rewrite (bind_ok_l _ _ _ _ _ Ho).
    assert (Hnext : forall amount,
      multi_hop_loop chain_id route (total + min_safe_slip_bps result) amount
        (details ++ [hop_detail token_in token_out result]) c2
      = (Ok (Some (total', current', details')), c') ->
      length details' = (length details + length ((token_in, token_out) :: route))%nat).
    { intros amount Hloop. apply IH in Hloop. rewrite Hloop.
      rewrite length_app. simpl. lia. }
    destruct o as [reserves|].
    + destruct (calculate_output_amount current (reserve_in reserves)
                  (reserve_out reserves) default_fee_bps) as [out|e].
      * rewrite bind_lift_Ok. apply Hnext.
      * rewrite bind_lift_Raise. discriminate.
    + apply Hnext.
Qed.

(** The loop over a path is the loop over its first hops followed, from
    the state they leave, by the loop over the remaining ones. *)
Lemma multi_hop_loop_app chain_id pre post :
  forall total current details (c : Calculator World),
    multi_hop_loop chain_id (pre ++ post) total current details c
    = match multi_hop_loop chain_id pre total current details c with
      | (Ok (Some (total', current', details')), c') =>
          multi_hop_loop chain_id post total' current' details' c'
      | (Ok None, c') => (Ok None, c')
      | (Raise e, c') => (Raise e, c')
      end.
Proof.
  induction pre as [|[token_in token_out] pre IH];
    intros total current details c; [reflexivity|].
  cbn [app multi_hop_loop].
  destruct (calculate_safe_slippage_total chain_id token_in token_out
              current None c) as (r & c1 & Hr).
  rewrite !(bind_ok_l _ _ _ _ _ Hr).
  destruct r as [result|]; [|reflexivity].
  destruct (refetch_total chain_id (pair_address result) token_in token_out c1)
    as (o & c2 & Ho).
  rewrite !(bind_ok_l _ _ _ _ _ Ho).
  destruct o as [reserves|].
  - destruct (calculate_output_amount current (reserve_in reserves)
                (reserve_out reserves) default_fee_bps) as [out|e].
    + rewrite !bind_lift_Ok. apply IH.
    + rewrite !bind_lift_Raise. reflexivity.
  - apply IH.
Qed.

(** C2 (amended): at every hop the single-hop pipeline runs on the
    current amount; if it fails the whole call returns no result. If it
    succeeds the pool reserves are fetched a second time: when that fetch
    succeeds the next hop runs on [calculate_output_amount] of the current
    amount and the fetched reserves (and the call raises if that division
    does), and when it fails the next hop runs on the unchanged amount. A
    returned result has one entry per hop of the path and a total of at most
    5000.

    The hop is [(token_in, token_out)], at any position of the path: the
    hops before it are [pre], they were run from [amount] in the state [c0]
    and left the running total [total], the amount [current] that enters the
    hop, the entries [details] and the state [c]. *)
Theorem multi_hop_amount_propagation
    (chain_id : Z) (token_in token_out : string) (route : list (string * string))
    (total current : Z) (details : list HopDetail) (c : Calculator World) :
  (exists r c1,
     calculate_safe_slippage chain_id token_in token_out current None c
     = (Ok r, c1)
     /\ match r with
        | None =>
            multi_hop_loop chain_id ((token_in, token_out) :: route)
              total current details c = (Ok None, c1)
            /\ calculate_multi_hop_slippage chain_id
                 ((token_in, token_out) :: route) current c = (Ok None, c1)
        | Some result =>
            exists o c2,
              on_pool_analyzer
                (get_pool_reserves chain_id (pair_address result)
                   token_in token_out) c1 = (Ok o, c2)
              /\ multi_hop_loop chain_id ((token_in, token_out) :: route)
                   total current details c =
                 match o with
                 | Some reserves =>
                     match calculate_output_amount current
                             (reserve_in reserves) (reserve_out reserves)
                             default_fee_bps with
                     | Ok out =>
                         multi_hop_loop chain_id route
                           (total + min_safe_slip_bps result) out
                           (details ++ [hop_detail token_in token_out result])
                           c2
                     | Raise e => (Raise e, c2)
                     end
                 | None =>
                     multi_hop_loop chain_id route
                       (total + min_safe_slip_bps result) current
                       (details ++ [hop_detail token_in token_out result]) c2
                 end
        end)
  /\ (forall r c',
        calculate_multi_hop_slippage chain_id route current c
        = (Ok (Some r), c') ->
        length (hop_details r) = length route
        /\ num_hops r = Z.of_nat (length route)
        /\ total_slippage_bps r <= 5000)
  /\ (forall pre amount c0,
        multi_hop_loop chain_id pre 0 amount [] c0
        = (Ok (Some (total, current, details)), c) ->
        (forall c1,
           calculate_safe_slippage chain_id token_in token_out current None c
           = (Ok None, c1) ->
           calculate_multi_hop_slippage chain_id
             (pre ++ (token_in, token_out) :: route) amount c0
           = (Ok None, c1))
        /\ calculate_multi_hop_slippage chain_id
             (pre ++ (token_in, token_out) :: route) amount c0
           = match multi_hop_loop chain_id ((token_in, token_out) :: route)
                     total current details c with
             | (Ok (Some (total', _, details')), c') =>
                 (Ok (Some {| total_slippage_bps := Z.min 5000 total';
                              num_hops :=
                                Z.of_nat (length (pre ++ (token_in, token_out)
                                                      :: route));
                              hop_details := details' |}), c')
             | (Ok None, c') => (Ok None, c')
             | (Raise e, c') => (Raise e, c')
             end).
Proof.
  assert (Hstep_none : forall c1,
    calculate_safe_slippage chain_id token_in token_out current None c
    = (Ok None, c1) ->
    multi_hop_loop chain_id ((token_in, token_out) :: route)
      total current details c = (Ok None, c1)).
  { intros c1 Hr. cbn [multi_hop_loop].
    rewrite (bind_ok_l _ _ _ _ _ Hr). reflexivity. }
  split; [|split].
  - destruct (calculate_safe_slippage_total chain_id token_in token_out
                current None c) as (r & c1 & Hr).
    exists r, c1. split; [exact Hr|].
    destruct r as [result|].
    + destruct (refetch_total chain_id (pair_address result)
                  token_in token_out c1) as (o & c2 & Ho).
      exists o, c2. split; [exact Ho|].
      cbn [multi_hop_loop].
      rewrite (bind_ok_l _ _ _ _ _ Hr). rewrite (bind_ok_l _ _ _ _ _ Ho).
      destruct o as [reserves|]; [|reflexivity].
      destruct (calculate_output_amount current (reserve_in reserves)
                  (reserve_out reserves) default_fee_bps) as [out|e];
        reflexivity.
    + split.
      * apply Hstep_none. exact Hr.
      * unfold calculate_multi_hop_slippage. cbn [multi_hop_loop].
        unfold bind at 1. unfold bind at 1. rewrite Hr. reflexivity.
  - intros r c'. unfold calculate_multi_hop_slippage.
    destruct (multi_hop_loop chain_id route 0 current [] c)
      as [[[[[t a] d]|]|e] c2] eqn:Hloop.
    + rewrite (bind_ok_l _ _ _ _ _ Hloop). intros [= <- <-]. simpl.
      apply multi_hop_loop_length in Hloop. simpl in Hloop.
      repeat split; [exact Hloop | lia].
    + rewrite (bind_ok_l _ _ _ _ _ Hloop). discriminate.
    + rewrite (bind_raise_l _ _ _ _ _ Hloop). discriminate.
  - intros pre amount c0 Hpre.
    assert (Hcall :
      calculate_multi_hop_slippage chain_id
        (pre ++ (token_in, token_out) :: route) amount c0
      = match multi_hop_loop chain_id ((token_in, token_out) :: route)
                total current details c with
        | (Ok (Some (total', _, details')), c') =>
            (Ok (Some {| total_slippage_bps := Z.min 5000 total';
                         num_hops :=
                           Z.of_nat (length (pre ++ (token_in, token_out)
                                                 :: route));
                         hop_details := details' |}), c')
        | (Ok None, c') => (Ok None, c')
        | (Raise e, c') => (Raise e, c')
        end).
    { unfold calculate_multi_hop_slippage. unfold bind at 1.
      rewrite multi_hop_loop_app, Hpre.
      destruct (multi_hop_loop chain_id ((token_in, token_out) :: route)
                  total current details c)
        as [[[[[t a] d]|]|e] c2]; reflexivity. }
    split; [|exact Hcall].
    intros c1 Hr. rewrite Hcall, (Hstep_none c1 Hr). reflexivity.
Qed.

End MultiHop.

Lemma multi_hop_amount_propagation_witness :
  (exists r c',
     calculate_multi_hop_slippage 1
       [(Scripted.WETH, Scripted.USDC); (Scripted.USDC, Scripted.DAI)]
       (10 * 10 ^ 18) (Scripted.fresh Scripted.two_hops_healthy)
     = (Ok (Some r), c')
     /\ length (hop_details r) = 2%nat
     /\ num_hops r = 2
     /\ total_slippage_bps r <= 5000)
  /\ fst (calculate_multi_hop_slippage 1
            [(Scripted.WETH, Scripted.USDC); (Scripted.USDC, Scripted.DAI)]
            (10 * 10 ^ 18) (Scripted.fresh Scripted.sushi_only))
     = Ok None.
Proof.
  set (path := [(Scripted.WETH, Scripted.USDC); (Scripted.USDC, Scripted.DAI)]).
  split.
  - set (c := Scripted.fresh Scripted.two_hops_healthy).
    pose (out := calculate_multi_hop_slippage (H := Scripted.external)
                   1 path (10 * 10 ^ 18) c).
    pose (r := {| total_slippage_bps := 5000;
                  num_hops := 2;
                  hop_details :=
                    [ {| hop_token_in := Scripted.WETH;
                         hop_token_out := Scripted.USDC;
                         hop_slippage_bps := 180;
                         hop_pair_address := Scripted.POOL_A |};
                      {| hop_token_in := Scripted.USDC;
                         hop_token_out := Scripted.DAI;
                         hop_slippage_bps := 5000;
                         hop_pair_address := Scripted.POOL_B |} ] |}).
    assert (Hout : out = (Ok (Some r), snd out)) by (vm_compute; reflexivity).
    exists r, (snd out). split; [exact Hout|].
    exact (proj1 (proj2 (multi_hop_amount_propagation (H := Scripted.external)
                           1 Scripted.WETH Scripted.USDC path 0 (10 * 10 ^ 18)
                           [] c))
             r (snd out) Hout).
  - set (c0 := Scripted.fresh Scripted.sushi_only).
    pose (first_hop := multi_hop_loop (H := Scripted.external)
                         1 [(Scripted.WETH, Scripted.USDC)] 0 (10 * 10 ^ 18)
                         [] c0).
    pose (details := [ {| hop_token_in := Scripted.WETH;
                          hop_token_out := Scripted.USDC;
                          hop_slippage_bps := 180;
                          hop_pair_address := Scripted.POOL_A |} ]).
    pose (second_hop := calculate_safe_slippage (H := Scripted.external)
                          1 Scripted.USDC Scripted.DAI 19743160687941225977009
                          None (snd first_hop)).
    exact (f_equal fst
             (proj1 (proj2 (proj2
                (multi_hop_amount_propagation (H := Scripted.external)
                   1 Scripted.USDC Scripted.DAI [] 180 19743160687941225977009
                   details (snd first_hop)))
                [(Scripted.WETH, Scripted.USDC)] (10 * 10 ^ 18) c0
                ltac:(vm_compute; reflexivity))
                (snd second_hop) ltac:(vm_compute; reflexivity))).
Defined.

(** C2, as stated, fails when the second reserve fetch of a hop fails.
    On the path WETH -> USDC -> DAI with 10 WETH, the pipeline of hop 1
    succeeds, the reserve fetch that follows it fails, and yet the call
    returns a result for both hops; hop 2 (79 bps) was computed on the 10
    units that entered hop 1, not on the 19743.16... units that
    [calculate_output_amount] gives for hop 1, for which hop 2 yields 5000
    bps. *)
Lemma multi_hop_refetch_failure_not_fatal :
  let path := [(Scripted.WETH, Scripted.USDC); (Scripted.USDC, Scripted.DAI)] in
  let amount := 10 * 10 ^ 18 in
  let c := Scripted.fresh Scripted.two_hops in
  exists hop1 c1,
    calculate_safe_slippage 1 Scripted.WETH Scripted.USDC amount None c
    = (Ok (Some hop1), c1)
    /\ fst (on_pool_analyzer
              (get_pool_reserves 1 (pair_address hop1)
                 Scripted.WETH Scripted.USDC) c1) = Ok None
    /\ (exists r,
          fst (calculate_multi_hop_slippage 1 path amount c) = Ok (Some r)
          /\ map hop_slippage_bps (hop_details r) = [180; 79])
    /\ calculate_output_amount amount (1000 * 10 ^ 18) (2000000 * 10 ^ 18)
         default_fee_bps = Ok 19743160687941225977009
    /\ (exists r,
          fst (calculate_multi_hop_slippage 1 path amount
                 (Scripted.fresh Scripted.two_hops_healthy)) = Ok (Some r)
          /\ map hop_slippage_bps (hop_details r) = [180; 5000]).
Proof.
  cbv zeta. eexists. eexists.
  split; [vm_compute; reflexivity|].
  split; [vm_compute; reflexivity|].
  split; [eexists; split; vm_compute; reflexivity|].
  split; [vm_compute; reflexivity|].
  eexists; split; vm_compute; reflexivity.
Qed.

(** ** The estimation endpoint *)

Lemma py_int_raises_value_error (s : string) (base : Z) (e : exn) :
  py_int s base = Raise e -> exn_kind_of e = ValueError.
Proof.
  unfold py_int. destruct (parse_int s base); [discriminate|].
  intros [= <-]. reflexivity.
Qed.

Section Endpoint.
Context {World : Type} `{External World}.

(** The endpoint up to the call of the pipeline: an unsupported chain and
    an amount that [int()] rejects are answered with HTTP 400; every integer,
    whatever its sign, goes into the pipeline. *)
Lemma estimate_slippage_amount (request : SlippageRequest)
    (c : Calculator World) :
  dict_mem (req_chain request) CHAIN_CONFIG = true ->
  estimate_slippage request c =
  match py_int (req_amount_in request) 10 with
  | Raise _ => (Raise (invalid_amount (req_amount_in request)), c)
  | Ok amount_in_wei =>
      match calculate_safe_slippage (req_chain request)
              (req_token_in request) (req_token_out request)
              amount_in_wei (req_route_hint request) c with
      | (Ok (Some result), c') =>
          (Ok (response_of result (utcnow_isoformat (calc_world c') +:+ "Z")),
           c')
      | (Ok None, c') => (Raise (http_exception 503 FAILED_TO_CALCULATE), c')
      | (Raise e, c') =>
          (Raise match exn_kind_of e with
                 | HTTPException _ => e
                 | _ => http_exception 500
                          ("Internal server error: " +:+ exn_msg e)
                 end, c')
      end
  end.
Proof.
  intros Hchain. unfold estimate_slippage. rewrite Hchain. cbn [negb].
  unfold try_except at 1.
  destruct (py_int (req_amount_in request) 10) as [amount|e] eqn:Hint.
  - unfold bind at 1. unfold try_except at 1. unfold lift at 1.
    unfold bind at 1.
    destruct (calculate_safe_slippage _ _ _ _ _ c) as [[[result|]|e] c'];
      try reflexivity.
    unfold raise. destruct (exn_kind_of e); reflexivity.
  - unfold bind at 1. unfold try_except at 1. unfold lift at 1.
    rewrite (py_int_raises_value_error _ _ _ Hint). reflexivity.
Qed.

(** C3 (amended): the caller receives either a response built from a
    complete result of the pipeline, or an HTTP error. A chain that is not in
    [CHAIN_CONFIG] is answered with HTTP 400, and so is, on a supported
    chain, an amount that [int()] rejects; both before anything is touched.
    Every other failure is one and the same 503 with one fixed message: a
    request for which no exchange has the pair and a request whose pool
    cannot be read are both answered with it, and the cause is not told
    apart. Nothing else is ever answered. *)
Theorem estimate_slippage_outcomes (request : SlippageRequest)
    (c : Calculator World) :
  (exists r c',
     estimate_slippage request c = (r, c')
     /\ match r with
        | Ok response =>
            exists amount_in_wei result,
              dict_mem (req_chain request) CHAIN_CONFIG = true
              /\ py_int (req_amount_in request) 10 = Ok amount_in_wei
              /\ calculate_safe_slippage (req_chain request)
                   (req_token_in request) (req_token_out request)
                   amount_in_wei (req_route_hint request) c
                 = (Ok (Some result), c')
              /\ response
                 = response_of result
                     (utcnow_isoformat (calc_world c') +:+ "Z")
        | Raise e =>
            (dict_mem (req_chain request) CHAIN_CONFIG = false
             /\ e = unsupported_chain (req_chain request)
             /\ c' = c)
            \/ (dict_mem (req_chain request) CHAIN_CONFIG = true
                /\ (exists e', py_int (req_amount_in request) 10 = Raise e')
                /\ e = invalid_amount (req_amount_in request)
                /\ c' = c)
            \/ (exists amount_in_wei,
                  dict_mem (req_chain request) CHAIN_CONFIG = true
                  /\ py_int (req_amount_in request) 10 = Ok amount_in_wei
                  /\ calculate_safe_slippage (req_chain request)
                       (req_token_in request) (req_token_out request)
                       amount_in_wei (req_route_hint request) c
                     = (Ok None, c')
                  /\ e = http_exception 503 FAILED_TO_CALCULATE)
        end)
  /\ (dict_mem (req_chain request) CHAIN_CONFIG = false ->
      estimate_slippage request c
      = (Raise (unsupported_chain (req_chain request)), c))
  /\ (forall e',
        dict_mem (req_chain request) CHAIN_CONFIG = true ->
        py_int (req_amount_in request) 10 = Raise e' ->
        estimate_slippage request c
        = (Raise (invalid_amount (req_amount_in request)), c))
  /\ exn_kind_of (unsupported_chain (req_chain request)) = HTTPException 400
  /\ exn_kind_of (invalid_amount (req_amount_in request)) = HTTPException 400
  /\ (forall amount_in_wei c1,
        dict_mem (req_chain request) CHAIN_CONFIG = true ->
        py_int (req_amount_in request) 10 = Ok amount_in_wei ->
        on_route_finder
          (find_best_route (req_chain request) (req_token_in request)
             (req_token_out request) (req_route_hint request)) c
        = (Ok None, c1) ->
        estimate_slippage request c
        = (Raise (http_exception 503 FAILED_TO_CALCULATE), c1))
  /\ (forall amount_in_wei route c1 c2,
        dict_mem (req_chain request) CHAIN_CONFIG = true ->
        py_int (req_amount_in request) 10 = Ok amount_in_wei ->
        on_route_finder
          (find_best_route (req_chain request) (req_token_in request)
             (req_token_out request) (req_route_hint request)) c
        = (Ok (Some route), c1) ->
        on_pool_analyzer
          (get_pool_reserves (req_chain request) (route_pair_address route)
             (req_token_in request) (req_token_out request)) c1
        = (Ok None, c2) ->
        estimate_slippage request c
        = (Raise (http_exception 503 FAILED_TO_CALCULATE), c2)).
Proof.
  assert (Hunsupported :
    dict_mem (req_chain request) CHAIN_CONFIG = false ->
    estimate_slippage request c
    = (Raise (unsupported_chain (req_chain request)), c)).
  { intros Hchain. unfold estimate_slippage. rewrite Hchain. reflexivity. }
  assert (Hinvalid : forall e',
    dict_mem (req_chain request) CHAIN_CONFIG = true ->
    py_int (req_amount_in request) 10 = Raise e' ->
    estimate_slippage request c
    = (Raise (invalid_amount (req_amount_in request)), c)).
  { intros e' Hchain Hint.
    rewrite (estimate_slippage_amount _ _ Hchain), Hint. reflexivity. }
  split; [|split; [exact Hunsupported|split; [exact Hinvalid|]]].
  - destruct (dict_mem (req_chain request) CHAIN_CONFIG) eqn:Hchain.
    + destruct (py_int (req_amount_in request) 10) as [amount|e'] eqn:Hint.
      * rewrite (estimate_slippage_amount _ _ Hchain), Hint.
        destruct (calculate_safe_slippage_total (req_chain request)
                    (req_token_in request) (req_token_out request)
                    amount (req_route_hint request) c) as (r & c' & Hr).
        rewrite Hr. destruct r as [result|].
        -- eexists _, _. split; [reflexivity|].
           exists amount, result. repeat split. exact Hr.
        -- eexists _, _. split; [reflexivity|]. right. right.
           exists amount. repeat split. exact Hr.
      * rewrite (Hinvalid e' eq_refl eq_refl).
        eexists _, _. split; [reflexivity|]. right. left.
        repeat split. exists e'. reflexivity.
    + rewrite (Hunsupported eq_refl).
      eexists _, _. split; [reflexivity|]. left. repeat split.
  - split; [reflexivity|]. split; [reflexivity|]. split.
    + intros amount c1 Hchain Hint Hroute.
      rewrite (estimate_slippage_amount _ _ Hchain), Hint.
      unfold calculate_safe_slippage, try_except.
      rewrite (bind_ok_l _ _ _ _ _ Hroute). reflexivity.
    + intros amount route c1 c2 Hchain Hint Hroute Hres.
      rewrite (estimate_slippage_amount _ _ Hchain), Hint.
      unfold calculate_safe_slippage, try_except.
      rewrite (bind_ok_l _ _ _ _ _ Hroute).
      rewrite (bind_ok_l _ _ _ _ _ Hres). reflexivity.
Qed.

End Endpoint.

Lemma estimate_slippage_outcomes_witness :
  fst (estimate_slippage (Scripted.request "1000000000000000000")
         (Scripted.fresh Scripted.no_route))
  = Raise (http_exception 503 FAILED_TO_CALCULATE)
  /\ fst (estimate_slippage (Scripted.request "1000000000000000000")
            (Scripted.fresh Scripted.unreadable_pool))
     = Raise (http_exception 503 FAILED_TO_CALCULATE)
  /\ estimate_slippage (Scripted.request "ten")
       (Scripted.fresh Scripted.sushi_only)
     = (Raise (http_exception 400
                 "Invalid amount_in: ten. Must be a valid integer in wei."),
        Scripted.fresh Scripted.sushi_only)
  /\ estimate_slippage
       {| req_token_in := Scripted.WETH; req_token_out := Scripted.USDC;
          req_amount_in := "1000000000000000000"; req_chain := 5;
          req_route_hint := None |}
       (Scripted.fresh Scripted.sushi_only)
     = (Raise (http_exception 400
                 "Chain 5 not supported. Supported: [1, 137, 42161, 10, 8453, 56, 43114]"),
        Scripted.fresh Scripted.sushi_only).
Proof.
  set (request := Scripted.request "1000000000000000000").
  set (a := Scripted.fresh Scripted.no_route).
  set (b := Scripted.fresh Scripted.unreadable_pool).
  set (c := Scripted.fresh Scripted.sushi_only).
  pose (route := {| route_pair_address := Scripted.POOL_A;
                    route_dex_name := "uniswap_v2";
                    route_factory_address := Some Scripted.UNI_FACTORY |}).
  pose (find := on_route_finder
                  (find_best_route (H := Scripted.external)
                     1 Scripted.WETH Scripted.USDC None)).
  pose (fetch := on_pool_analyzer
                   (get_pool_reserves (H := Scripted.external)
                      1 Scripted.POOL_A Scripted.WETH Scripted.USDC)).
  split; [|split; [|split]].
  - rewrite (proj1 (proj2 (proj2 (proj2 (proj2 (proj2
               (estimate_slippage_outcomes
                  (H := Scripted.external) request a))))))
               (10 ^ 18) (snd (find a))
               ltac:(vm_compute; reflexivity)
               ltac:(vm_compute; reflexivity)
               ltac:(vm_compute; reflexivity)).
    reflexivity.
  - rewrite (proj2 (proj2 (proj2 (proj2 (proj2 (proj2
               (estimate_slippage_outcomes
                  (H := Scripted.external) request b))))))
               (10 ^ 18) route (snd (find b)) (snd (fetch (snd (find b))))
               ltac:(vm_compute; reflexivity)
               ltac:(vm_compute; reflexivity)
               ltac:(vm_compute; reflexivity)
               ltac:(vm_compute; reflexivity)).
    reflexivity.
  - rewrite (proj1 (proj2 (proj2
               (estimate_slippage_outcomes
                  (H := Scripted.external) (Scripted.request "ten") c)))
               (Exn ValueError "invalid literal for int()")
               ltac:(vm_compute; reflexivity)
               ltac:(vm_compute; reflexivity)).
    reflexivity.
  - rewrite (proj1 (proj2
               (estimate_slippage_outcomes (H := Scripted.external)
                  {| req_token_in := Scripted.WETH;
                     req_token_out := Scripted.USDC;
                     req_amount_in := "1000000000000000000"; req_chain := 5;
                     req_route_hint := None |} c))
               ltac:(vm_compute; reflexivity)).
    vm_compute. reflexivity.
Defined.

(** C3, as stated, fails: the two causes of failure give the same
    result. In one world no exchange has the pair; in the other the pair
    exists and its reserves cannot be read. The pipeline returns [None] in
    both and the endpoint answers both with the same error. *)
Lemma failure_causes_conflated :
  let request := Scripted.request "1000000000000000000" in
  let a := Scripted.fresh Scripted.no_route in
  let b := Scripted.fresh Scripted.unreadable_pool in
  fst (on_route_finder
         (find_best_route 1 Scripted.WETH Scripted.USDC None) a) = Ok None
  /\ (exists route b1,
        on_route_finder
          (find_best_route 1 Scripted.WETH Scripted.USDC None) b
        = (Ok (Some route), b1)
        /\ fst (on_pool_analyzer
                  (get_pool_reserves 1 (route_pair_address route)
                     Scripted.WETH Scripted.USDC) b1) = Ok None)
  /\ fst (calculate_safe_slippage 1 Scripted.WETH Scripted.USDC (10 ^ 18)
            None a) = Ok None
  /\ fst (calculate_safe_slippage 1 Scripted.WETH Scripted.USDC (10 ^ 18)
            None b) = Ok None
  /\ fst (estimate_slippage request a) = fst (estimate_slippage request b).
Proof.
  cbv zeta.
  split; [vm_compute; reflexivity|].
  split; [eexists _, _; split; vm_compute; reflexivity|].
  split; [vm_compute; reflexivity|].
  split; vm_compute; reflexivity.
Qed.

(** C8 at a negative amount. The request with
    [amount_in = "-10000000000000000000"] on a chain where Sushiswap has the
    pair is not rejected: [int()] reads -10^19, the pipeline runs on it and
    the endpoint answers with a recommendation (price impact -100 bps,
    clamped to 50 bps), while a text that is not an integer is answered with
    HTTP 400. *)
Theorem negative_amount_accepted :
  py_int "-10000000000000000000" 10 = Ok (- 10 ^ 19)
  /\ (exists response,
        fst (estimate_slippage (Scripted.request "-10000000000000000000")
               (Scripted.fresh Scripted.sushi_only)) = Ok response
        /\ resp_price_impact_bps response = -100
        /\ resp_min_safe_slip_bps response = 50
        /\ resp_route_used response = "sushiswap")
  /\ fst (estimate_slippage (Scripted.request "ten")
            (Scripted.fresh Scripted.sushi_only))
     = Raise (http_exception 400
                "Invalid amount_in: ten. Must be a valid integer in wei.").
Proof.
  split; [vm_compute; reflexivity|].
  split; [|vm_compute; reflexivity].
  eexists. split; [vm_compute; reflexivity|].
  repeat split; reflexivity.
Qed.

(** * Further properties of the engine *)

(** ** The constant-product curve *)

(** X1: whenever [calculate_output_amount] returns on non-negative inputs
    with a fee of at most 10000 bps, the output is between 0 and
    [reserve_out]; it stays strictly below [reserve_out] for a pool with
    both reserves positive, it is the whole of [reserve_out] for a pool whose
    input reserve is 0, and the product of the reserves after the trade is
    not below the product before it. *)
Theorem calculate_output_amount_never_drains
    (amount_in reserve_in reserve_out fee_bps out : Z) :
  0 <= amount_in -> 0 <= reserve_in -> 0 <= reserve_out ->
  0 <= fee_bps <= 10000 ->
  calculate_output_amount amount_in reserve_in reserve_out fee_bps = Ok out ->
  0 <= out <= reserve_out
  /\ (0 < reserve_in -> 0 < reserve_out -> out < reserve_out)
  /\ (reserve_in = 0 -> out = reserve_out)
  /\ reserve_in * reserve_out
     <= (reserve_in + amount_in) * (reserve_out - out).
Proof.
  intros Ha Hri Hro Hfee Hout.
  set (x := amount_in * (10000 - fee_bps)).
  assert (Hx : 0 <= x <= amount_in * 10000) by (unfold x; nia).
  set (d := reserve_in * 10000 + x).
  assert (Hd : d <> 0).
  { intros Hz. unfold d, x in Hz.
    apply (proj2 (calculate_output_amount_raises _ _ reserve_out _)) in Hz.
    rewrite Hout in Hz. discriminate. }
  rewrite (calculate_output_amount_value _ _ _ _ Hd) in Hout.
  injection Hout as <-. fold x. fold d.
  assert (Hdpos : 0 < d) by (unfold d in *; lia).
  pose proof (Z.mul_div_le (x * reserve_out) d Hdpos) as Hle.
  pose proof (Z.mul_succ_div_gt (x * reserve_out) d Hdpos) as Hgt.
  set (q := x * reserve_out / d) in *.
  assert (Hq0 : 0 <= q) by (apply Z.div_pos; nia).
  assert (Hqro : q <= reserve_out).
  { apply Z.div_le_upper_bound; [lia|]. unfold d. nia. }
  repeat split; try lia.
  - intros Hri' Hro'. apply Z.div_lt_upper_bound; [lia|]. unfold d. nia.
  - intros ->. unfold q, d. replace (0 * 10000 + x) with x by lia.
    replace (x * reserve_out) with (reserve_out * x) by lia.
    apply Z.div_mul. unfold d in Hd. lia.
  - assert (Hk : reserve_in * 10000 * reserve_out <= d * (reserve_out - q))
      by (unfold d in *; nia).
    assert (Hd' : d <= (reserve_in + amount_in) * 10000) by (unfold d; lia).
    assert (Hr : 0 <= reserve_out - q) by lia.
    nia.
Qed.

Lemma calculate_output_amount_never_drains_witness :
  0 <= 1564 <= 80000
  /\ (0 < 50000 -> 0 < 80000 -> 1564 < 80000)
  /\ (50000 = 0 -> 1564 = 80000)
  /\ 50000 * 80000 <= (50000 + 1000) * (80000 - 1564).
Proof.
  apply (calculate_output_amount_never_drains 1000 50000 80000 30 1564);
    try lia.
  reflexivity.
Defined.

(** X2: for a pool with a positive input reserve and a non-negative
    amount, a higher fee never gives a larger output. *)
Theorem calculate_output_amount_fee_antitone
    (amount_in reserve_in reserve_out fee1 fee2 : Z) :
  0 <= amount_in -> 0 < reserve_in -> 0 <= reserve_out ->
  0 <= fee1 <= fee2 -> fee2 <= 10000 ->
  exists o1 o2,
    calculate_output_amount amount_in reserve_in reserve_out fee1 = Ok o1
    /\ calculate_output_amount amount_in reserve_in reserve_out fee2 = Ok o2
    /\ o2 <= o1.
Proof.
  intros Ha Hri Hro Hfee Hmax.
  set (x1 := amount_in * (10000 - fee1)).
  set (x2 := amount_in * (10000 - fee2)).
  assert (H2 : 0 <= x2) by (unfold x2; nia).
  assert (H12 : x2 <= x1) by (unfold x1, x2; nia).
  exists (x1 * reserve_out / (reserve_in * 10000 + x1)),
         (x2 * reserve_out / (reserve_in * 10000 + x2)).
  split; [apply calculate_output_amount_value; fold x1; lia|].
  split; [apply calculate_output_amount_value; fold x2; lia|].
  apply floor_div_le; [lia | lia |].
  assert (Hc : x2 * (reserve_in * 10000) <= x1 * (reserve_in * 10000)) by nia.
  nia.
Qed.

Lemma calculate_output_amount_fee_antitone_witness :
  exists o1 o2,
    calculate_output_amount 1000 50000 80000 30 = Ok o1
    /\ calculate_output_amount 1000 50000 80000 100 = Ok o2
    /\ o2 <= o1.
Proof.
  apply (calculate_output_amount_fee_antitone 1000 50000 80000 30 100); lia.
Defined.

(** X3: for a non-negative amount and a fee of at most 10000 bps, the
    output does not decrease when the output reserve grows and does not
    increase when the input reserve grows. *)
Theorem calculate_output_amount_reserves_monotone
    (amount_in ri1 ri2 ro1 ro2 fee_bps : Z) :
  0 <= amount_in -> 0 < ri1 <= ri2 -> 0 <= ro1 <= ro2 ->
  0 <= fee_bps <= 10000 ->
  exists shallow deep more,
    calculate_output_amount amount_in ri1 ro1 fee_bps = Ok shallow
    /\ calculate_output_amount amount_in ri2 ro1 fee_bps = Ok deep
    /\ calculate_output_amount amount_in ri1 ro2 fee_bps = Ok more
    /\ deep <= shallow <= more.
Proof.
  intros Ha Hri Hro Hfee.
  set (x := amount_in * (10000 - fee_bps)).
  assert (Hx : 0 <= x) by (unfold x; nia).
  exists (x * ro1 / (ri1 * 10000 + x)),
         (x * ro1 / (ri2 * 10000 + x)),
         (x * ro2 / (ri1 * 10000 + x)).
  split; [apply calculate_output_amount_value; fold x; lia|].
  split; [apply calculate_output_amount_value; fold x; lia|].
  split; [apply calculate_output_amount_value; fold x; lia|].
  split.
  - apply floor_div_le; [lia | lia |].
    assert (0 <= x * ro1) by nia. nia.
  - apply floor_div_le; [lia | lia |].
    assert (x * ro1 <= x * ro2) by nia. nia.
Qed.

Lemma calculate_output_amount_reserves_monotone_witness :
  exists shallow deep more,
    calculate_output_amount 1000 50000 80000 30 = Ok shallow
    /\ calculate_output_amount 1000 60000 80000 30 = Ok deep
    /\ calculate_output_amount 1000 50000 90000 30 = Ok more
    /\ deep <= shallow <= more.
Proof.
  apply (calculate_output_amount_reserves_monotone
           1000 50000 60000 80000 90000 30); lia.
Defined.

(** ** Connections *)

Section Connections.
Context {World : Type} `{External World}.

(** X4: a connection that [get_w3] opens is cached under its chain and
    leaves the entries of the other chains alone; asking again returns the
    same handle from the cache without touching the world; and a failed
    attempt caches nothing. *)
Theorem get_w3_caches_on_success (chain_id : Z) (s s1 : Self World) :
  (forall w3,
     get_w3 chain_id s = (Ok (Some w3), s1) ->
     w3_connections s1 !! chain_id = Some w3
     /\ (forall other, other <> chain_id ->
           w3_connections s1 !! other = w3_connections s !! other)
     /\ get_w3 chain_id s1 = (Ok (Some w3), s1))
  /\ (get_w3 chain_id s = (Ok None, s1) ->
      w3_connections s1 = w3_connections s).
Proof.
  unfold get_w3. split.
  - intros w3.
    destruct (w3_connections s !! chain_id) as [cached|] eqn:Hcache.
    + intros [= <- <-]. rewrite Hcache. auto.
    + destruct (get_rpc_url (world s) chain_id) as [url|]; [|discriminate].
      destruct (negb (truthy url)); [discriminate|].
      destruct (w3_is_connected url (world s)) as [[[]|] w]; try discriminate.
      intros [= <- <-]. cbn [w3_connections world].
      rewrite lookup_insert_eq. repeat split.
      intros other Hne. rewrite lookup_insert_ne; [reflexivity|congruence].
  - destruct (w3_connections s !! chain_id) as [cached|]; [discriminate|].
    destruct (get_rpc_url (world s) chain_id) as [url|];
      [|intros [= <-]; reflexivity].
    destruct (negb (truthy url)); [intros [= <-]; reflexivity|].
    destruct (w3_is_connected url (world s)) as [[[]|] w]; try discriminate;
      intros [= <-]; reflexivity.
Qed.

(** X5: for a chain that is not in [CHAIN_CONFIG] and not cached, and for
    a chain whose endpoint is overridden by an empty environment variable,
    [get_w3] answers [None] without any remote call: the object and the world
    are as before. *)
Theorem get_w3_without_endpoint (chain_id : Z) (s : Self World) :
  w3_connections s !! chain_id = None ->
  (get_chain_info chain_id = None -> get_w3 chain_id s = (Ok None, s))
  /\ (forall config,
        get_chain_info chain_id = Some config ->
        os_getenv (world s) (cc_rpc_env config) = Some "" ->
        get_w3 chain_id s = (Ok None, s)).
Proof.
  intros Hcache. unfold get_w3, get_rpc_url, get_chain_info. rewrite Hcache.
  split.
  - intros ->. reflexivity.
  - intros config -> ->. reflexivity.
Qed.

End Connections.

Lemma get_w3_caches_on_success_witness :
  let s := Scripted.fresh_self Scripted.sushi_only in
  let w3 := {| provider_url := "https://eth.llamarpc.com" |} in
  let s1 := {| w3_connections := <[1 := w3]> ∅;
               world := Scripted.sushi_only |} in
  w3_connections s1 !! 1 = Some w3
  /\ (forall other, other <> 1 ->
        w3_connections s1 !! other = w3_connections s !! other)
  /\ get_w3 1 s1 = (Ok (Some w3), s1).
Proof.
  cbv zeta.
  apply (proj1 (get_w3_caches_on_success (H := Scripted.external) 1
                  (Scripted.fresh_self Scripted.sushi_only) _)).
  reflexivity.
Defined.

Lemma get_w3_without_endpoint_witness :
  get_w3 5 (Scripted.fresh_self Scripted.sushi_only)
  = (Ok None, Scripted.fresh_self Scripted.sushi_only)
  /\ get_w3 (H := Scripted.with_env [("ETHEREUM_RPC_URL", "")]) 1
       (Scripted.fresh_self Scripted.sushi_only)
     = (Ok None, Scripted.fresh_self Scripted.sushi_only).
Proof.
  split.
  - apply (proj1 (get_w3_without_endpoint (H := Scripted.external) 5
                    (Scripted.fresh_self Scripted.sushi_only) eq_refl)).
    reflexivity.
  - eapply (proj2 (get_w3_without_endpoint
                     (H := Scripted.with_env [("ETHEREUM_RPC_URL", "")]) 1
                     (Scripted.fresh_self Scripted.sushi_only) eq_refl));
      reflexivity.
Defined.

(** ** Exchange names and hints *)

Lemma ascii_lower_idempotent (c : ascii) :
  ascii_lower (ascii_lower c) = ascii_lower c.
Proof. destruct c as [[] [] [] [] [] [] [] []]; reflexivity. Qed.

Lemma lower_idempotent (s : string) : lower (lower s) = lower s.
Proof.
  induction s as [|c s IH]; [reflexivity|].
  cbn [lower]. rewrite ascii_lower_idempotent, IH. reflexivity.
Qed.

Section Hints.
Context {World : Type} `{External World}.

(** X6: exchange names are matched without regard to case: looking a
    name up gives what looking its lower-case form up gives, for the factory
    table and for the pair lookup alike. *)
Theorem exchange_name_case_insensitive
    (chain_id : Z) (dex_name token_in token_out : string) (s : Self World) :
  get_dex_factory chain_id dex_name = get_dex_factory chain_id (lower dex_name)
  /\ find_pair_on_dex chain_id dex_name token_in token_out s
     = find_pair_on_dex chain_id (lower dex_name) token_in token_out s.
Proof.
  unfold get_dex_factory, find_pair_on_dex.
  rewrite lower_idempotent. split; reflexivity.
Qed.

(** X7: for an exchange that the chain's factory table does not have,
    [find_pair_on_dex] answers [None] and asks no factory: the only effect is
    that of obtaining the connection. *)
Theorem find_pair_on_dex_unknown_exchange
    (chain_id : Z) (dex_name token_in token_out : string) (s : Self World) :
  get_dex_factory chain_id dex_name = None ->
  exists o s1,
    get_w3 chain_id s = (Ok o, s1)
    /\ find_pair_on_dex chain_id dex_name token_in token_out s = (Ok None, s1).
Proof.
  unfold get_dex_factory. intros Hnone.
  destruct (get_w3_total chain_id s) as (o & s1 & Hw3).
  exists o, s1. split; [exact Hw3|].
  unfold find_pair_on_dex, try_except.
  rewrite (bind_ok_l _ _ _ _ _ Hw3).
  destruct o as [w3|]; [|reflexivity].
  cbv zeta. rewrite Hnone. reflexivity.
Qed.

(** X8: a hint that resolves short-circuits the search: the route is the
    hinted exchange under the name as the caller wrote it, with the factory
    of its lower-case form, and the state is the one left by that single
    lookup. A hint that does not resolve changes nothing but the starting
    state of the full scan. *)
Theorem find_best_route_hint
    (chain_id : Z) (token_in token_out hint : string) (s s1 : Self World)
    (r : option string) :
  truthy hint = true ->
  find_pair_on_dex chain_id hint token_in token_out s = (Ok r, s1) ->
  (forall p,
     r = Some p -> truthy p = true ->
     exists factory_address,
       get_dex_factory chain_id hint = Some factory_address
       /\ find_best_route chain_id token_in token_out (Some hint) s
          = (Ok (Some {| route_pair_address := p;
                         route_dex_name := hint;
                         route_factory_address := Some factory_address |}),
             s1))
  /\ (no_pair r ->
      find_best_route chain_id token_in token_out (Some hint) s
      = find_best_route chain_id token_in token_out None s1).
Proof.
  intros Hhint Hlookup. split.
  - intros p -> Hp.
    assert (Hfactory : exists fa, get_dex_factory chain_id hint = Some fa).
    { unfold get_dex_factory. revert Hlookup.
      unfold find_pair_on_dex, try_except, bind, ret.
      destruct (get_w3 chain_id s) as [[[w3|]|] s']; try discriminate.
      cbv zeta.
      destruct (dict_get (lower hint) (factories_of chain_id)) as [fa|];
        [eauto|discriminate]. }
    destruct Hfactory as (fa & Hfa). exists fa. split; [exact Hfa|].
    unfold find_best_route. rewrite Hhint.
    rewrite (bind_ok_l _ _ _ _ _ Hlookup). rewrite Hp.
    unfold get_dex_factory in Hfa. cbv zeta. rewrite Hfa. reflexivity.
  - intros Hnone. unfold find_best_route. rewrite Hhint.
    rewrite (bind_ok_l _ _ _ _ _ Hlookup).
    destruct r as [p|]; [|reflexivity].
    simpl in Hnone. rewrite Hnone. reflexivity.
Qed.

(** The routes that a scan of [items] collects, written as registry
    entries. *)
Lemma find_all_routes_loop_collects chain_id token_in token_out items :
  forall routes (s : Self World),
  exists found s',
    find_all_routes_loop chain_id token_in token_out items routes s
    = (Ok (routes ++ found), s')
    /\ sublist
         (map (fun r => (route_dex_name r, route_factory_address r)) found)
         (map (fun item => (fst item, Some (snd item))) items)
    /\ Forall (fun r => truthy (route_pair_address r) = true
                        /\ route_pair_address r <> ZERO_ADDRESS) found
    /\ exists s1,
         find_best_route_loop chain_id token_in token_out items s
         = (Ok (head found), s1).
Proof.
  induction items as [|[dex_name factory_address] items IH]; intros routes s.
  - exists [], s. rewrite app_nil_r. repeat split; try constructor.
    exists s. reflexivity.
  - destruct (find_pair_on_dex_total chain_id dex_name token_in token_out s)
      as (r & s1 & Hlookup).
    cbn [find_all_routes_loop find_best_route_loop].
    rewrite !(bind_ok_l _ _ _ _ _ Hlookup).
    destruct r as [p|]; [destruct (truthy p) eqn:Hp|].
    + destruct (IH (routes ++ [ {| route_pair_address := p;
                                   route_dex_name := dex_name;
                                   route_factory_address := Some factory_address |} ])
                  s1) as (found & s' & Hloop & Hsub & Hall & _).
      exists ({| route_pair_address := p;
                 route_dex_name := dex_name;
                 route_factory_address := Some factory_address |} :: found), s'.
      split; [rewrite Hloop, <- app_assoc; reflexivity|].
      split; [simpl; apply sublist_skip; exact Hsub|].
      split.
      * constructor; [|exact Hall]. split; [exact Hp|].
        eapply find_pair_on_dex_nonzero. exact Hlookup.
      * exists s1. reflexivity.
    + destruct (IH routes s1) as (found & s' & Hloop & Hsub & Hall & Hfirst).
      exists found, s'. split; [exact Hloop|].
      split; [simpl; apply sublist_cons; exact Hsub|].
      split; [exact Hall|]. exact Hfirst.
    + destruct (IH routes s1) as (found & s' & Hloop & Hsub & Hall & Hfirst).
      exists found, s'. split; [exact Hloop|].
      split; [simpl; apply sublist_cons; exact Hsub|].
      split; [exact Hall|]. exact Hfirst.
Qed.

(** X9: [find_all_routes] never raises; the routes it returns are
    exchanges of the chain's factory table, in the table's order and each at
    most once, every one with a non-empty, non-zero pair address. *)
Theorem find_all_routes_in_registry_order
    (chain_id : Z) (token_in token_out : string) (s : Self World) :
  exists routes s',
    find_all_routes chain_id token_in token_out s = (Ok routes, s')
    /\ sublist
         (map (fun r => (route_dex_name r, route_factory_address r)) routes)
         (map (fun item => (fst item, Some (snd item)))
            (factories_of chain_id))
    /\ Forall (fun r => truthy (route_pair_address r) = true
                        /\ route_pair_address r <> ZERO_ADDRESS) routes.
Proof.
  destruct (find_all_routes_loop_collects chain_id token_in token_out
              (factories_of chain_id) [] s)
    as (found & s' & Hloop & Hsub & Hall & _).
  exists found, s'. unfold find_all_routes. rewrite Hloop. auto.
Qed.

(** X10: from the same state, the route that [find_best_route] returns
    without a hint is the first of the routes that [find_all_routes] returns,
    and it returns none exactly when that list is empty. *)
Theorem find_best_route_is_first_of_all
    (chain_id : Z) (token_in token_out : string) (s : Self World) :
  exists routes s_all s_best,
    find_all_routes chain_id token_in token_out s = (Ok routes, s_all)
    /\ find_best_route chain_id token_in token_out None s
       = (Ok (head routes), s_best).
Proof.
  destruct (find_all_routes_loop_collects chain_id token_in token_out
              (factories_of chain_id) [] s)
    as (found & s' & Hloop & _ & _ & s1 & Hbest).
  exists found, s', s1. unfold find_all_routes, find_best_route.
  rewrite Hloop. auto.
Qed.

End Hints.

Lemma find_pair_on_dex_unknown_exchange_witness :
  fst (find_pair_on_dex 1 "pancakeswap" Scripted.WETH Scripted.USDC
         (Scripted.fresh_self Scripted.sushi_only)) = Ok None.
Proof.
  destruct (find_pair_on_dex_unknown_exchange (H := Scripted.external)
              1 "pancakeswap" Scripted.WETH Scripted.USDC
              (Scripted.fresh_self Scripted.sushi_only) eq_refl)
    as (o & s1 & _ & Hfind).
  rewrite Hfind. reflexivity.
Defined.

Lemma find_best_route_hint_witness :
  fst (find_best_route 1 Scripted.WETH Scripted.USDC (Some "SushiSwap")
         (Scripted.fresh_self Scripted.sushi_only))
  = Ok (Some {| route_pair_address := Scripted.POOL_A;
                route_dex_name := "SushiSwap";
                route_factory_address := Some Scripted.SUSHI_FACTORY |})
  /\ fst (find_best_route 1 Scripted.WETH Scripted.USDC (Some "uniswap_v2")
            (Scripted.fresh_self Scripted.sushi_only))
     = Ok (Some {| route_pair_address := Scripted.POOL_A;
                   route_dex_name := "sushiswap";
                   route_factory_address := Some Scripted.SUSHI_FACTORY |}).
Proof.
  set (s := Scripted.fresh_self Scripted.sushi_only).
  pose (lookup hint :=
          find_pair_on_dex (H := Scripted.external)
            1 hint Scripted.WETH Scripted.USDC s).
  split.
  - destruct (proj1 (find_best_route_hint (H := Scripted.external)
                       1 Scripted.WETH Scripted.USDC "SushiSwap"
                       s (snd (lookup "SushiSwap")) (Some Scripted.POOL_A)
                       eq_refl ltac:(vm_compute; reflexivity))
                Scripted.POOL_A eq_refl eq_refl)
      as (fa & Hfa & Hroute).
    rewrite Hroute. vm_compute in Hfa. injection Hfa as <-. reflexivity.
  - rewrite (proj2 (find_best_route_hint (H := Scripted.external)
                      1 Scripted.WETH Scripted.USDC "uniswap_v2"
                      s (snd (lookup "uniswap_v2")) None
                      eq_refl ltac:(vm_compute; reflexivity)) I).
    vm_compute. reflexivity.
Defined.

(** ** Reserves of a pool *)

Section Reserves.
Context {World : Type} `{External World}.

(** X11: [get_pool_reserves] never compares [token_out] with the tokens of
    the pool. Reserves returned for one output token are returned, from the
    same state and with the same effect, for any other output token that has
    a checksum form; only [token_out_address] differs. The returned [k] is
    the product of the two reserves. *)
Theorem get_pool_reserves_ignores_token_out
    (chain_id : Z) (pair_address token_in token_out other other_checksum : string)
    (s s' : Self World) (reserves : PoolReserves) :
  get_pool_reserves chain_id pair_address token_in token_out s
  = (Ok (Some reserves), s') ->
  to_checksum_address other = Ok other_checksum ->
  pr_k reserves = reserve_in reserves * reserve_out reserves
  /\ get_pool_reserves chain_id pair_address token_in other s
     = (Ok (Some {| reserve_in := reserve_in reserves;
                    reserve_out := reserve_out reserves;
                    token_in_address := token_in_address reserves;
                    token_out_address := other_checksum;
                    pr_k := pr_k reserves |}), s').
Proof.
  intros Hres Hother. revert Hres.
  unfold get_pool_reserves, try_except, bind, ret, lift, remote.
  rewrite Hother. cbv beta.
  repeat case_stage; intros Heq; inversion Heq; subst; split; reflexivity.
Qed.

End Reserves.

Lemma get_pool_reserves_ignores_token_out_witness :
  exists reserves,
    fst (get_pool_reserves 1 Scripted.POOL_A Scripted.WETH Scripted.DAI
           (Scripted.fresh_self Scripted.sushi_only)) = Ok (Some reserves)
    /\ reserve_in reserves = 1000 * 10 ^ 18
    /\ reserve_out reserves = 2000000 * 10 ^ 18
    /\ token_out_address reserves = Scripted.DAI.
Proof.
  set (s := Scripted.fresh_self Scripted.sushi_only).
  pose (out := get_pool_reserves (H := Scripted.external)
                 1 Scripted.POOL_A Scripted.WETH Scripted.USDC s).
  pose (reserves := {| reserve_in := 1000 * 10 ^ 18;
                       reserve_out := 2000000 * 10 ^ 18;
                       token_in_address := Scripted.WETH;
                       token_out_address := Scripted.USDC;
                       pr_k := (1000 * 10 ^ 18) * (2000000 * 10 ^ 18) |}).
  destruct (get_pool_reserves_ignores_token_out (H := Scripted.external)
              1 Scripted.POOL_A Scripted.WETH Scripted.USDC
              Scripted.DAI Scripted.DAI s (snd out) reserves
              ltac:(vm_compute; reflexivity) eq_refl) as [_ Hother].
  rewrite Hother. eexists. repeat split.
Defined.

(** ** Swap logs *)


Lemma omap_decoded_cons (log : Log) (logs : list Log) :
  omap decoded (log :: logs)
  = match decode_swap_log log with
    | Ok swap => swap :: omap decoded logs
    | Raise _ => omap decoded logs
    end.
Proof.
  change (omap decoded (log :: logs))
    with (match decoded log with
          | Some y => y :: omap decoded logs
          | None => omap decoded logs
          end).
  unfold decoded at 1. destruct (decode_swap_log log); reflexivity.
Qed.

Lemma decode_swap_logs_omap (logs : list Log) :
  forall swaps, decode_swap_logs logs swaps = swaps ++ omap decoded logs.
Proof.
  induction logs as [|log logs IH]; intros swaps.
  - simpl. rewrite app_nil_r. reflexivity.
  - cbn [decode_swap_logs]. rewrite omap_decoded_cons.
    destruct (decode_swap_log log) as [swap|e].
    + rewrite IH, <- app_assoc. reflexivity.
    + apply IH.
Qed.


(** [int()] on a text that starts with a NUL byte. *)
Lemma lstrip_snoc (c : ascii) (l : list ascii) :
  is_space c = false -> exists l', lstrip (l ++ [c]) = l' ++ [c].
Proof.
  intros Hc. induction l as [|a l IH]; simpl.
  - rewrite Hc. exists []. reflexivity.
  - destruct (is_space a); [exact IH|]. exists (a :: l). reflexivity.
Qed.

Lemma strip_head (c : ascii) (l : list ascii) :
  is_space c = false -> exists l', strip (c :: l) = c :: l'.
Proof.
  intros Hc. unfold strip. cbn [lstrip]. rewrite Hc. cbn [rev].
  destruct (lstrip_snoc c (rev l) Hc) as [l' ->].
  rewrite rev_app_distr. exists (rev l'). reflexivity.
Qed.

Lemma py_int_nul (s : string) :
  py_int (String "000" s) 16
  = Raise (Exn ValueError "invalid literal for int()").
Proof.
  unfold py_int, parse_int. cbn [list_ascii_of_string].
  destruct (strip_head "000" (list_ascii_of_string s) eq_refl) as [l' ->].
  reflexivity.
Qed.

(** The third byte of a 32-byte word below [2 ^ 232] is NUL. *)
Lemma be_bytes_third (v : Z) :
  0 <= v < 2 ^ 232 ->
  exists b0 b1, be_bytes 32 v = b0 :: b1 :: "000"%char :: be_bytes 29 v.
Proof.
  intros Hv.
  change (be_bytes 32 v)
    with (ascii_of_nat (Z.to_nat ((v / 256 ^ Z.of_nat 31) mod 256))
          :: ascii_of_nat (Z.to_nat ((v / 256 ^ Z.of_nat 30) mod 256))
          :: ascii_of_nat (Z.to_nat ((v / 256 ^ Z.of_nat 29) mod 256))
          :: be_bytes 29 v).
  assert (Hpow : 256 ^ Z.of_nat 29 = 2 ^ 232) by reflexivity.
  rewrite Hpow, (Z.div_small v (2 ^ 232) Hv).
  eexists _, _. reflexivity.
Qed.

Lemma substring_third (a b c : ascii) (s : string) (n : nat) :
  substring 2 (S n) (String a (String b (String c s)))
  = String c (substring 0 n s).
Proof. reflexivity. Qed.

Lemma raw_swap_log_not_decoded (log : Log) :
  raw_swap_log log -> decoded log = None.
Proof.
  intros (a0in & a1in & a0out & a1out & Ha & Hdata).
  unfold decoded, decode_swap_log, py_slice. rewrite Hdata.
  unfold swap_log_bytes.
  destruct (be_bytes_third a0in Ha) as (b0 & b1 & ->).
  cbn [app string_of_list_ascii].
  change (66 - 2)%nat with 64%nat.
  rewrite substring_third, py_int_nul. reflexivity.
Qed.

(** ** Swap history *)

Section History.
Context {World : Type} `{External World}.

Lemma get_volatility_metrics_of_swaps chain_id pair_address blocks_back
    (s s' : Self World) (swaps : list Swap) :
  get_recent_swaps chain_id pair_address blocks_back s = (Ok swaps, s') ->
  get_volatility_metrics chain_id pair_address blocks_back s
  = (analyze_trade_sizes swaps, s').
Proof.
  intros Hswaps. unfold get_volatility_metrics.
  rewrite (bind_ok_l _ _ _ _ _ Hswaps). reflexivity.
Qed.

(** X13: a Swap log whose payload is the 128 raw bytes of its four
    amounts is never decoded when [amount0In] is below [2 ^ 232]:
    [data[2:66]] then starts with a NUL byte and [int(..., 16)] raises. When
    every log of the window has such a payload, [get_recent_swaps] returns
    no swap and [get_volatility_metrics] the all-zero metrics, however many
    swaps the logs record. *)
Theorem raw_swap_payloads_give_no_history
    (chain_id : Z) (pair_address : string) (blocks_back : Z) (s : Self World)
    (logs : list Log) :
  Forall raw_swap_log logs ->
  decode_swap_logs logs [] = []
  /\ (forall w3 s1 head w address w',
        get_w3 chain_id s = (Ok (Some w3), s1) ->
        eth_block_number w3 (world s1) = (Ok head, w) ->
        to_checksum_address pair_address = Ok address ->
        eth_get_logs w3
          {| fp_address := address;
             fp_fromBlock := Z.max 0 (head - blocks_back);
             fp_toBlock := head;
             fp_topics := [SWAP_EVENT_SIGNATURE] |} w = (Ok logs, w') ->
        get_recent_swaps chain_id pair_address blocks_back s
        = (Ok [], {| w3_connections := w3_connections s1; world := w' |})
        /\ get_volatility_metrics chain_id pair_address blocks_back s
           = (Ok (zero_metrics 0),
              {| w3_connections := w3_connections s1; world := w' |})).
Proof.
  intros Hraw.
  assert (Hnone : decode_swap_logs logs [] = []).
  { rewrite decode_swap_logs_omap. cbn [app].
    induction Hraw as [|log logs Hlog _ IH]; [reflexivity|].
    rewrite omap_decoded_cons.
    pose proof (raw_swap_log_not_decoded log Hlog) as Hd.
    unfold decoded in Hd.
    destruct (decode_swap_log log); [discriminate|exact IH]. }
  split; [exact Hnone|].
  intros w3 s1 head w address w' Hw3 Hhead Haddr Hlogs.
  assert (Hswaps :
    get_recent_swaps chain_id pair_address blocks_back s
    = (Ok [], {| w3_connections := w3_connections s1; world := w' |})).
  { unfold get_recent_swaps, try_except.
    rewrite (bind_ok_l _ _ _ _ _ Hw3).
    unfold bind at 1, remote at 1. rewrite Hhead. cbv zeta.
    rewrite Haddr. unfold bind at 1, lift at 1.
    unfold bind at 1, remote at 1. cbn [world w3_connections].
    rewrite Hlogs, Hnone. reflexivity. }
  split; [exact Hswaps|].
  rewrite (get_volatility_metrics_of_swaps _ _ _ _ _ _ Hswaps). reflexivity.
Qed.

(** X14: the swap history is optional. [get_recent_swaps] never raises,
    and when there is no connection, when the head block cannot be read, or
    when the log query for the window from [max(0, head - blocks_back)] to
    [head] fails, [get_volatility_metrics] returns the all-zero metrics
    instead of an error. *)
Theorem get_volatility_metrics_absorbs_failures
    (chain_id : Z) (pair_address : string) (blocks_back : Z) (s : Self World) :
  (exists swaps s',
     get_recent_swaps chain_id pair_address blocks_back s = (Ok swaps, s'))
  /\ (forall s1,
        get_w3 chain_id s = (Ok None, s1) ->
        get_volatility_metrics chain_id pair_address blocks_back s
        = (Ok (zero_metrics 0), s1))
  /\ (forall w3 s1 e w,
        get_w3 chain_id s = (Ok (Some w3), s1) ->
        eth_block_number w3 (world s1) = (Raise e, w) ->
        get_volatility_metrics chain_id pair_address blocks_back s
        = (Ok (zero_metrics 0),
           {| w3_connections := w3_connections s1; world := w |}))
  /\ (forall w3 s1 head w address e w',
        get_w3 chain_id s = (Ok (Some w3), s1) ->
        eth_block_number w3 (world s1) = (Ok head, w) ->
        to_checksum_address pair_address = Ok address ->
        eth_get_logs w3
          {| fp_address := address;
             fp_fromBlock := Z.max 0 (head - blocks_back);
             fp_toBlock := head;
             fp_topics := [SWAP_EVENT_SIGNATURE] |} w = (Raise e, w') ->
        get_volatility_metrics chain_id pair_address blocks_back s
        = (Ok (zero_metrics 0),
           {| w3_connections := w3_connections s1; world := w' |})).
Proof.
  split; [unfold get_recent_swaps; apply try_except_total|].
  split; [|split].
  - intros s1 Hw3.
    rewrite (get_volatility_metrics_of_swaps _ _ _ s s1 []); [reflexivity|].
    unfold get_recent_swaps, try_except.
    rewrite (bind_ok_l _ _ _ _ _ Hw3). reflexivity.
  - intros w3 s1 e w Hw3 Hhead.
    rewrite (get_volatility_metrics_of_swaps _ _ _ s
               {| w3_connections := w3_connections s1; world := w |} []);
      [reflexivity|].
    unfold get_recent_swaps, try_except.
    rewrite (bind_ok_l _ _ _ _ _ Hw3).
    unfold bind at 1, remote. rewrite Hhead. reflexivity.
  - intros w3 s1 head w address e w' Hw3 Hhead Haddr Hlogs.
    rewrite (get_volatility_metrics_of_swaps _ _ _ s
               {| w3_connections := w3_connections s1; world := w' |} []);
      [reflexivity|].
    unfold get_recent_swaps, try_except.
    rewrite (bind_ok_l _ _ _ _ _ Hw3).
    unfold bind at 1, remote at 1. rewrite Hhead. cbv zeta.
    rewrite Haddr. unfold bind at 1, lift at 1.
    unfold bind at 1, remote at 1. cbn [world w3_connections].
    rewrite Hlogs. reflexivity.
Qed.

(** X15: the metrics depend on the swaps only through their trade
    sizes: two histories with the same sizes in the same order, whatever
    their blocks and output amounts, give the same result. *)
Theorem analyze_trade_sizes_only_sizes (swaps1 swaps2 : list Swap) :
  map trade_size swaps1 = map trade_size swaps2 ->
  analyze_trade_sizes swaps1 = analyze_trade_sizes swaps2.
Proof.
  intros Hsizes.
  assert (Hpos : forall swaps,
            positive_sizes swaps
            = filter (fun z => 0 < z) (map trade_size swaps)).
  { intros swaps. unfold positive_sizes.
    induction swaps as [|s swaps IH]; [reflexivity|].
    cbn [map]. rewrite !filter_cons.
    destruct (decide (0 < trade_size s)); cbn [map]; rewrite IH; reflexivity. }
  assert (Hlen : length swaps1 = length swaps2).
  { rewrite <- (length_map trade_size swaps1), Hsizes. apply length_map. }
  unfold analyze_trade_sizes.
  rewrite !Hpos, Hsizes, Hlen.
  destruct swaps1, swaps2; try discriminate; reflexivity.
Qed.

(** X16: swaps without a positive trade size only count in
    [total_swaps]: removing them leaves the percentiles and the volatility
    factor as they were. *)
Theorem analyze_trade_sizes_idle_swaps (swaps : list Swap)
    (m : VolatilityMetrics) :
  analyze_trade_sizes swaps = Ok m ->
  exists m',
    analyze_trade_sizes (filter (fun swap => 0 < trade_size swap) swaps) = Ok m'
    /\ trade_size_p50 m' = trade_size_p50 m
    /\ trade_size_p95 m' = trade_size_p95 m
    /\ trade_size_p99 m' = trade_size_p99 m
    /\ vm_volatility_factor m' = vm_volatility_factor m
    /\ total_swaps m'
       = Z.of_nat (length (filter (fun swap => 0 < trade_size swap) swaps)).
Proof.
  set (kept := filter (fun swap => 0 < trade_size swap) swaps).
  assert (Hsame : positive_sizes kept = positive_sizes swaps).
  { unfold positive_sizes, kept. f_equal.
    induction swaps as [|s swaps IH]; [reflexivity|].
    rewrite filter_cons. destruct (decide (0 < trade_size s)) as [Hs|Hs].
    - rewrite filter_cons. destruct (decide (0 < trade_size s)); [|lia].
      rewrite IH. reflexivity.
    - exact IH. }
  assert (Hkept : kept = [] -> positive_sizes swaps = []).
  { intros Hnil. rewrite <- Hsame, Hnil. reflexivity. }
  unfold analyze_trade_sizes. rewrite Hsame.
  destruct swaps as [|s0 swaps0] eqn:Hswaps.
  - intros [= <-]. exists (zero_metrics 0). repeat split.
  - destruct (positive_sizes (s0 :: swaps0)) as [|z zs] eqn:Hpos.
    + intros [= <-]. destruct kept; eexists; repeat split.
    + destruct kept as [|k0 kept0] eqn:Hk; [specialize (Hkept eq_refl); discriminate|].
      intros Hm.
      apply rbind_ok in Hm as (p50 & H50 & Hm).
      apply rbind_ok in Hm as (p95 & H95 & Hm).
      apply rbind_ok in Hm as (p99 & H99 & Hm).
      apply rbind_ok in Hm as (mean_size & Hmean & Hm).
      apply rbind_ok in Hm as (std_size & Hstd & Hm).
      injection Hm as <-.
      rewrite H50, H95, H99, Hmean, Hstd. cbn [rbind].
      eexists. repeat split.
Qed.

End History.

Lemma raw_swap_payloads_give_no_history_witness :
  get_recent_swaps 1 Scripted.POOL_A 500
    (Scripted.fresh_self Scripted.raw_history)
  = (Ok [],
     snd (get_w3 1 (Scripted.fresh_self Scripted.raw_history)))
  /\ fst (get_volatility_metrics 1 Scripted.POOL_A 500
            (Scripted.fresh_self Scripted.raw_history))
     = Ok (zero_metrics 0).
Proof.
  set (s := Scripted.fresh_self Scripted.raw_history).
  pose (w3 := {| provider_url := "https://eth.llamarpc.com" |}).
  pose (s1 := snd (get_w3 (H := Scripted.external) 1 s)).
  pose (logs :=
          [ {| log_blockNumber := 18999800;
               log_data :=
                 swap_log_bytes (5 * 10 ^ 18) 0 0 (2487 * 10 ^ 12) |};
            {| log_blockNumber := 18999900;
               log_data :=
                 swap_log_bytes (12 * 10 ^ 18) 0 0 (5968 * 10 ^ 12) |} ]).
  assert (Hraw : Forall raw_swap_log logs).
  { repeat constructor.
    - exists (5 * 10 ^ 18), 0, 0, (2487 * 10 ^ 12).
      split; [split; [lia | reflexivity] | reflexivity].
    - exists (12 * 10 ^ 18), 0, 0, (5968 * 10 ^ 12).
      split; [split; [lia | reflexivity] | reflexivity]. }
  destruct (proj2 (raw_swap_payloads_give_no_history (H := Scripted.external)
                     1 Scripted.POOL_A 500 s logs Hraw)
              w3 s1 19000000 Scripted.raw_history Scripted.POOL_A
              Scripted.raw_history
              ltac:(vm_compute; reflexivity) ltac:(vm_compute; reflexivity)
              ltac:(vm_compute; reflexivity) ltac:(vm_compute; reflexivity))
    as [Hswaps Hmetrics].
  split.
  - rewrite Hswaps. vm_compute. reflexivity.
  - rewrite Hmetrics. reflexivity.
Defined.

Lemma get_volatility_metrics_absorbs_failures_witness :
  fst (get_volatility_metrics (H := Scripted.headless) 1 Scripted.POOL_A 500
         (Scripted.fresh_self Scripted.sushi_only))
  = Ok (zero_metrics 0).
Proof.
  set (s := Scripted.fresh_self Scripted.sushi_only).
  pose (w3 := {| provider_url := "https://eth.llamarpc.com" |}).
  pose (s1 := snd (get_w3 (H := Scripted.headless) 1 s)).
  rewrite (proj1 (proj2 (proj2
             (get_volatility_metrics_absorbs_failures (H := Scripted.headless)
                1 Scripted.POOL_A 500 s)))
             w3 s1 (Exn ExternalError "connection refused")
             Scripted.sushi_only eq_refl eq_refl).
  reflexivity.
Defined.

Lemma analyze_trade_sizes_only_sizes_witness :
  analyze_trade_sizes (H := Scripted.external)
    [Scripted.sized_swap 1 10; Scripted.idle_swap 2; Scripted.sized_swap 3 30]
  = analyze_trade_sizes (H := Scripted.external)
      [Scripted.sized_swap 7 10; Scripted.idle_swap 7;
       {| swap_block := 9; amount0In := 0; amount1In := 30;
          amount0Out := 4; amount1Out := 0; trade_size := 30 |}].
Proof.
  apply (analyze_trade_sizes_only_sizes (H := Scripted.external)).
  reflexivity.
Defined.

Lemma analyze_trade_sizes_idle_swaps_witness :
  exists m',
    analyze_trade_sizes (H := Scripted.external)
      [Scripted.sized_swap 1 10; Scripted.sized_swap 3 30] = Ok m'
    /\ trade_size_p50 m' = 20
    /\ total_swaps m' = 2.
Proof.
  pose (swaps := [Scripted.sized_swap 1 10; Scripted.idle_swap 2;
                  Scripted.sized_swap 3 30]).
  pose (m := {| trade_size_p50 := 20; trade_size_p95 := 29;
                trade_size_p99 := 29;
                vm_volatility_factor :=
                  S754_finite false 4503599627370496 (-53);
                total_swaps := 3 |}).
  destruct (analyze_trade_sizes_idle_swaps (H := Scripted.external) swaps m
              ltac:(vm_compute; reflexivity))
    as (m' & Hm' & H50 & _ & _ & _ & Htotal).
  exists m'. split; [exact Hm'|]. split; [exact H50 | exact Htotal].
Defined.

(** ** Quotes *)

Lemma calculate_price_impact_zero_amount (reserve_in reserve_out : Z) :
  0 < reserve_in ->
  calculate_price_impact 0 reserve_in reserve_out = Ok PyFloat.zero.
Proof.
  intros Hri. unfold calculate_price_impact.
  destruct (Z.eqb_spec reserve_in 0) as [->|_]; [lia|].
  rewrite (int_true_div_zero_num _ Hri). reflexivity.
Qed.

Section Quotes.
Context {World : Type} `{External World}.

(** X17: a quote for a zero amount on a pool without recent swaps is the
    liquidity buffer plus the MEV buffer after clamping: 70 bps for a pool
    scored low and the floor of 50 bps for a pool scored medium or high, with
    a price impact of 0 bps. *)
Theorem zero_amount_quote
    chain_id token_in token_out route_hint
    (c c1 c2 c3 : Calculator World) route reserves depth :
  on_route_finder (find_best_route chain_id token_in token_out route_hint) c
  = (Ok (Some route), c1) ->
  on_pool_analyzer
    (get_pool_reserves chain_id (route_pair_address route) token_in token_out)
    c1 = (Ok (Some reserves), c2) ->
  0 < reserve_in reserves ->
  estimate_liquidity_depth (reserve_in reserves) (reserve_out reserves)
    default_decimals default_decimals = Ok depth ->
  on_trade_analyzer
    (get_recent_swaps chain_id (route_pair_address route) 500) c2
  = (Ok [], c3) ->
  exists rec,
    calculate_safe_slippage chain_id token_in token_out 0 route_hint c
    = (Ok (Some rec), c3)
    /\ min_safe_slip_bps rec
       = match ld_liquidity_score depth with low => 70 | _ => 50 end
    /\ price_impact_bps rec = 0
    /\ recent_trade_size_p95 rec = 0.
Proof.
  intros Hroute Hres Hri Hdepth Hswaps.
  assert (Hvol :
    on_trade_analyzer
      (get_volatility_metrics chain_id (route_pair_address route) 500) c2
    = (Ok (zero_metrics 0), c3)).
  { revert Hswaps. unfold on_trade_analyzer.
    destruct (get_recent_swaps _ _ _ _) as [r self] eqn:Hrecent.
    intros [= -> <-].
    rewrite (get_volatility_metrics_of_swaps _ _ _ _ _ _ Hrecent).
    reflexivity. }
  rewrite (calculate_safe_slippage_stages _ _ _ _ _ _ _ _ _ _ _ _ _ _
             Hroute Hres (calculate_price_impact_zero_amount _ _ Hri)
             Hdepth Hvol).
  change (Spec.price_impact_bps PyFloat.zero) with (Ok 0 : result Z).
  change (Spec.base 0) with (Ok 0 : result Z).
  change (Spec.trunc_mul (vm_volatility_factor (zero_metrics 0)) 100)
    with (Ok 0 : result Z).
  cbv iota beta. eexists. split; [reflexivity|].
  cbn [min_safe_slip_bps price_impact_bps recent_trade_size_p95].
  destruct (ld_liquidity_score depth); repeat split; reflexivity.
Qed.

End Quotes.

Lemma zero_amount_quote_witness :
  exists rec c3,
    calculate_safe_slippage 1 Scripted.WETH Scripted.USDC 0 None
      (Scripted.fresh Scripted.sushi_only) = (Ok (Some rec), c3)
    /\ min_safe_slip_bps rec = 50.
Proof.
  set (c := Scripted.fresh Scripted.sushi_only).
  pose (route := {| route_pair_address := Scripted.POOL_A;
                    route_dex_name := "sushiswap";
                    route_factory_address := Some Scripted.SUSHI_FACTORY |}).
  pose (reserves := {| reserve_in := 1000 * 10 ^ 18;
                       reserve_out := 2000000 * 10 ^ 18;
                       token_in_address := Scripted.WETH;
                       token_out_address := Scripted.USDC;
                       pr_k := (1000 * 10 ^ 18) * (2000000 * 10 ^ 18) |}).
  pose (depth := {| reserve_in_tokens :=
                      S754_finite false 8796093022208000 (-43);
                    reserve_out_tokens :=
                      S754_finite false 8589934592000000 (-32);
                    ld_liquidity_score := high;
                    ld_recommended_max_trade := 10 * 10 ^ 18 |}).
  pose (c1 := snd (on_route_finder
                     (find_best_route (H := Scripted.external)
                        1 Scripted.WETH Scripted.USDC None) c)).
  pose (c2 := snd (on_pool_analyzer
                     (get_pool_reserves (H := Scripted.external)
                        1 Scripted.POOL_A Scripted.WETH Scripted.USDC) c1)).
  pose (c3 := snd (on_trade_analyzer
                     (get_recent_swaps (H := Scripted.external)
                        1 Scripted.POOL_A 500) c2)).
  destruct (zero_amount_quote (H := Scripted.external)
              1 Scripted.WETH Scripted.USDC None c c1 c2 c3
              route reserves depth
              ltac:(vm_compute; reflexivity)
              ltac:(vm_compute; reflexivity)
              ltac:(reflexivity)
              ltac:(vm_compute; reflexivity)
              ltac:(vm_compute; reflexivity))
    as (rec & Hrec & Hmin & _).
  exists rec, c3. split; [exact Hrec | exact Hmin].
Defined.

(** ** Totals of a multi-hop path *)

Section Totals.
Context {World : Type} `{External World}.

Lemma multi_hop_loop_accumulates chain_id route :
  forall total current details (c c' : Calculator World)
         total' current' details',
    multi_hop_loop chain_id route total current details c
    = (Ok (Some (total', current', details')), c') ->
    exists added,
      details' = details ++ added
      /\ total' = total + fold_right Z.add 0 (map hop_slippage_bps added)
      /\ Forall (fun hop => 50 <= hop_slippage_bps hop <= 5000) added
      /\ map (fun hop => (hop_token_in hop, hop_token_out hop)) added = route.
Proof.
  induction route as [|[token_in token_out] route IH];
    intros total current details c c' total' current' details'.
  - intros [= <- _ <- _]. exists []. rewrite app_nil_r.
    repeat split; [simpl; lia | constructor].
  - cbn [multi_hop_loop].
    destruct (calculate_safe_slippage_total chain_id token_in token_out
                current None c) as (r & c1 & Hr).
    rewrite (bind_ok_l _ _ _ _ _ Hr).
    destruct r as [result|]; [|discriminate].
    pose proof (calculate_safe_slippage_range _ _ _ _ _ _ _ _ Hr) as Hrange.
    destruct (refetch_total chain_id (pair_address result) token_in token_out c1)
      as (o & c2 & Ho).
    rewrite (bind_ok_l _ _ _ _ _ Ho).
    assert (Hnext : forall amount,
      multi_hop_loop chain_id route (total + min_safe_slip_bps result) amount
        (details ++ [hop_detail token_in token_out result]) c2
      = (Ok (Some (total', current', details')), c') ->
      exists added,
        details' = details ++ added
        /\ total' = total + fold_right Z.add 0 (map hop_slippage_bps added)
        /\ Forall (fun hop => 50 <= hop_slippage_bps hop <= 5000) added
        /\ map (fun hop => (hop_token_in hop, hop_token_out hop)) added
           = (token_in, token_out) :: route).
    { intros amount Hloop.
      apply IH in Hloop as (added & -> & -> & Hall & Hroute).
      exists (hop_detail token_in token_out result :: added).
      rewrite <- app_assoc. split; [reflexivity|].
      split; [simpl; lia|].
      split; [constructor; [exact Hrange | exact Hall]|].
      simpl. rewrite Hroute. reflexivity. }
    destruct o as [reserves|].
    + destruct (calculate_output_amount current (reserve_in reserves)
                  (reserve_out reserves) default_fee_bps) as [out|e].
      * rewrite bind_lift_Ok. apply Hnext.
      * rewrite bind_lift_Raise. discriminate.
    + apply Hnext.
Qed.

(** X18: a result of [calculate_multi_hop_slippage] lists the hops of
    the path in order, each with a slippage of 50..5000 bps, and its total is
    the sum of these capped at 5000; so the total is at least 50 for a
    non-empty path, and for the empty path the result has total 0 and no
    hops. *)
Theorem multi_hop_total_is_capped_sum
    (chain_id : Z) (route : list (string * string)) (amount_in : Z)
    (c c' : Calculator World) (r : MultiHopResult) :
  calculate_multi_hop_slippage chain_id route amount_in c = (Ok (Some r), c') ->
  map (fun hop => (hop_token_in hop, hop_token_out hop)) (hop_details r) = route
  /\ Forall (fun hop => 50 <= hop_slippage_bps hop <= 5000) (hop_details r)
  /\ total_slippage_bps r
     = Z.min 5000 (fold_right Z.add 0 (map hop_slippage_bps (hop_details r)))
  /\ (route <> [] -> 50 <= total_slippage_bps r)
  /\ (route = [] -> total_slippage_bps r = 0 /\ c' = c).
Proof.
  unfold calculate_multi_hop_slippage.
  destruct (multi_hop_loop chain_id route 0 amount_in [] c)
    as [[[[[t a] d]|]|e] c2] eqn:Hloop.
  - rewrite (bind_ok_l _ _ _ _ _ Hloop). intros [= <- <-].
    cbn [hop_details total_slippage_bps].
    pose proof Hloop as Hacc.
    apply multi_hop_loop_accumulates in Hacc
      as (added & Hd & Ht & Hall & Hroute).
    cbn [app] in Hd. subst d t. rewrite Z.add_0_l.
    split; [exact Hroute|]. split; [exact Hall|]. split; [reflexivity|].
    split.
    + intros Hne. destruct Hall as [|hop added Hhop Hall];
        [simpl in Hroute; congruence|].
      assert (Hsum : forall l,
                Forall (fun hop => 50 <= hop_slippage_bps hop <= 5000) l ->
                0 <= fold_right Z.add 0 (map hop_slippage_bps l)).
      { intros l Hl. induction Hl; simpl; lia. }
      specialize (Hsum _ Hall). simpl. lia.
    + intros ->. split.
      * destruct added; [reflexivity|discriminate].
      * simpl in Hloop. injection Hloop as _ _ _ <-. reflexivity.
  - rewrite (bind_ok_l _ _ _ _ _ Hloop). discriminate.
  - rewrite (bind_raise_l _ _ _ _ _ Hloop). discriminate.
Qed.

End Totals.

Lemma multi_hop_total_is_capped_sum_witness :
  exists r,
    fst (calculate_multi_hop_slippage 1
           [(Scripted.WETH, Scripted.USDC); (Scripted.USDC, Scripted.DAI)]
           (10 * 10 ^ 18) (Scripted.fresh Scripted.two_hops)) = Ok (Some r)
    /\ total_slippage_bps r
       = Z.min 5000
           (fold_right Z.add 0 (map hop_slippage_bps (hop_details r))).
Proof.
  set (path := [(Scripted.WETH, Scripted.USDC); (Scripted.USDC, Scripted.DAI)]).
  set (c := Scripted.fresh Scripted.two_hops).
  pose (out := calculate_multi_hop_slippage (H := Scripted.external)
                 1 path (10 * 10 ^ 18) c).
  pose (r := {| total_slippage_bps := 259;
                num_hops := 2;
                hop_details :=
                  [ {| hop_token_in := Scripted.WETH;
                       hop_token_out := Scripted.USDC;
                       hop_slippage_bps := 180;
                       hop_pair_address := Scripted.POOL_A |};
                    {| hop_token_in := Scripted.USDC;
                       hop_token_out := Scripted.DAI;
                       hop_slippage_bps := 79;
                       hop_pair_address := Scripted.POOL_B |} ] |}).
  assert (Hout : out = (Ok (Some r), snd out)) by (vm_compute; reflexivity).
  exists r. split; [unfold out in Hout; rewrite Hout; reflexivity|].
  exact (proj1 (proj2 (proj2
           (multi_hop_total_is_capped_sum (H := Scripted.external)
              1 path (10 * 10 ^ 18) c (snd out) r Hout)))).
Defined.

(** ** The endpoints *)

Section Endpoints.
Context {World : Type} `{External World}.

(** X19: a request that is rejected with HTTP 400 has touched nothing:
    the calculator, its connection caches and the world are as before the
    call. *)
Theorem rejected_request_has_no_effect
    (request : SlippageRequest) (c c' : Calculator World) (e : exn) :
  estimate_slippage request c = (Raise e, c') ->
  exn_kind_of e = HTTPException 400 ->
  c' = c.
Proof.
  destruct (dict_mem (req_chain request) CHAIN_CONFIG) eqn:Hchain.
  - rewrite (estimate_slippage_amount _ _ Hchain).
    destruct (py_int (req_amount_in request) 10) as [amount|e0].
    + destruct (calculate_safe_slippage_total (req_chain request)
                  (req_token_in request) (req_token_out request)
                  amount (req_route_hint request) c) as (r & c1 & Hr).
      rewrite Hr. destruct r as [result|]; [discriminate|].
      intros [= <- <-]. discriminate.
    + intros [= _ <-]. reflexivity.
  - unfold estimate_slippage. rewrite Hchain. cbn [negb].
    unfold try_except, raise. cbn. intros [= _ <-]. reflexivity.
Qed.

(** X20: the paid entrypoint. Without a request body it answers 402,
    and so it does in paid mode when the payment hash is absent or empty; in
    both cases nothing is estimated and nothing changes. In every other case
    it answers what [estimate_slippage] answers: the payment hash is not
    looked at beyond being non-empty. *)
Theorem entrypoint_payment_gate
    (settings : Settings) (request : SlippageRequest)
    (x_payment_txhash : option string) (c : Calculator World) :
  entrypoint_slippage_post settings None x_payment_txhash c
  = (Ok (Unpaid (entrypoint_slippage_get settings (calc_world c))), c)
  /\ (free_mode settings = false ->
      truthy_option x_payment_txhash = false ->
      entrypoint_slippage_post settings (Some request) x_payment_txhash c
      = (Ok (Unpaid (entrypoint_slippage_get settings (calc_world c))), c))
  /\ (free_mode settings = true \/ truthy_option x_payment_txhash = true ->
      entrypoint_slippage_post settings (Some request) x_payment_txhash c
      = match estimate_slippage request c with
        | (Ok response, c') => (Ok (Estimated response), c')
        | (Raise e, c') => (Raise e, c')
        end)
  /\ pr_status_code (entrypoint_slippage_get settings (calc_world c)) = 402.
Proof.
  split; [reflexivity|]. split; [|split; [|reflexivity]].
  - intros Hpaid Hhash. unfold entrypoint_slippage_post.
    rewrite Hpaid, Hhash. reflexivity.
  - intros Hopen. unfold entrypoint_slippage_post.
    assert (Hgate : negb (free_mode settings)
                    && negb (truthy_option x_payment_txhash) = false).
    { destruct Hopen as [-> | ->]; [reflexivity|].
      apply andb_false_r. }
    rewrite Hgate. unfold bind, ret.
    destruct (estimate_slippage request c) as [[response|e] c']; reflexivity.
Qed.

End Endpoints.

Lemma rejected_request_has_no_effect_witness :
  snd (estimate_slippage (Scripted.request "ten")
         (Scripted.fresh Scripted.sushi_only))
  = Scripted.fresh Scripted.sushi_only.
Proof.
  set (c := Scripted.fresh Scripted.sushi_only).
  pose (out := estimate_slippage (H := Scripted.external)
                 (Scripted.request "ten") c).
  apply (rejected_request_has_no_effect (H := Scripted.external)
           (Scripted.request "ten") c (snd out) (invalid_amount "ten"));
    vm_compute; reflexivity.
Defined.

Lemma entrypoint_payment_gate_witness :
  let paid := {| payment_address := DEFAULT_PAYMENT_ADDRESS;
                 free_mode := false |} in
  let c := Scripted.fresh Scripted.sushi_only in
  let request := Scripted.request "10000000000000000000" in
  entrypoint_slippage_post paid (Some request) (Some "") c
  = (Ok (Unpaid (entrypoint_slippage_get paid (calc_world c))), c)
  /\ entrypoint_slippage_post paid (Some request) (Some "not a hash") c
     = match estimate_slippage request c with
       | (Ok response, c') => (Ok (Estimated response), c')
       | (Raise e, c') => (Raise e, c')
       end.
Proof.
  cbv zeta. split.
  - apply (proj1 (proj2 (entrypoint_payment_gate (H := Scripted.external)
                           _ _ _ _))); reflexivity.
  - apply (proj1 (proj2 (proj2 (entrypoint_payment_gate
                                  (H := Scripted.external) _ _ _ _)))).
    right. reflexivity.
Defined.

(** ** Supported chains *)

Lemma dict_mem_keys {K V} `{EqDecision K} (key : K) (d : list (K * V)) :
  dict_mem key d = true <-> key ∈ dict_keys d.
Proof.
  unfold dict_mem, dict_keys.
  induction d as [|[k' v] d IH]; simpl.
  - split; [discriminate | intros Hin; inversion Hin].
  - destruct (decide (key = k')) as [->|Hne].
    + split; [intros _; left | reflexivity].
    + rewrite IH. split; [intros Hin; right; exact Hin|].
      intros Hin. apply elem_of_cons in Hin as [Heq|Hin]; [congruence|exact Hin].
Qed.

Section SupportedChains.
Context {World : Type} `{External World}.

(** X21: the chains that [/health] and [/chains] list are the chains
    that [estimate_slippage] accepts, and they are the chains with at least
    one exchange in the factory table; a request for any other chain is
    rejected with HTTP 400 whatever its other fields, and the two listings
    agree on the number of chains. *)
Theorem supported_chains_consistent
    (settings : Settings) (request : SlippageRequest) (c : Calculator World) :
  let chain_id := req_chain request in
  (chain_id ∈ health_chain_ids (health settings)
   <-> chain_id ∈ map ce_chain_id (cl_chains list_chains))
  /\ (chain_id ∈ health_chain_ids (health settings)
      <-> factories_of chain_id <> [])
  /\ (chain_id ∈ health_chain_ids (health settings)
      <-> get_chain_info chain_id <> None)
  /\ (chain_id ∉ health_chain_ids (health settings) ->
      exists e,
        estimate_slippage request c = (Raise e, c)
        /\ exn_kind_of e = HTTPException 400)
  /\ cl_total list_chains = health_supported_chains (health settings).
Proof.
  cbv zeta. set (chain_id := req_chain request).
  assert (Hkeys : health_chain_ids (health settings)
                  = [1; 137; 42161; 10; 8453; 56; 43114]) by reflexivity.
  assert (Hlisted : map ce_chain_id (cl_chains list_chains)
                    = [1; 137; 42161; 10; 8453; 56; 43114]) by reflexivity.
  rewrite Hkeys, Hlisted.
  split; [reflexivity|]. split; [|split; [|split; [|reflexivity]]].
  - rewrite !elem_of_cons, elem_of_nil.
    unfold factories_of. cbn [DEX_FACTORIES dict_get].
    repeat case_decide; subst; cbn [default];
      (split; [discriminate | intros _; lia]) || (split; [lia | congruence]).
  - rewrite !elem_of_cons, elem_of_nil.
    unfold get_chain_info. cbn [CHAIN_CONFIG dict_get].
    repeat case_decide; subst;
      (split; [discriminate | intros _; lia]) || (split; [lia | congruence]).
  - intros Hout.
    assert (Hmem : dict_mem chain_id CHAIN_CONFIG = false).
    { destruct (dict_mem chain_id CHAIN_CONFIG) eqn:Hmem; [|reflexivity].
      apply dict_mem_keys in Hmem. contradiction. }
    unfold estimate_slippage. fold chain_id. rewrite Hmem. cbn [negb].
    eexists. split; reflexivity.
Qed.

End SupportedChains.

Lemma supported_chains_consistent_witness :
  exists e,
    estimate_slippage
      {| req_token_in := Scripted.WETH; req_token_out := Scripted.USDC;
         req_amount_in := "1"; req_chain := 5; req_route_hint := None |}
      (Scripted.fresh Scripted.sushi_only)
    = (Raise e, Scripted.fresh Scripted.sushi_only)
    /\ exn_kind_of e = HTTPException 400.
Proof.
  apply (proj1 (proj2 (proj2 (proj2
           (supported_chains_consistent (H := Scripted.external)
              {| payment_address := DEFAULT_PAYMENT_ADDRESS;
                 free_mode := true |}
              {| req_token_in := Scripted.WETH; req_token_out := Scripted.USDC;
                 req_amount_in := "1"; req_chain := 5;
                 req_route_hint := None |}
              (Scripted.fresh Scripted.sushi_only)))))).
  vm_compute. intros Hin.
  repeat (apply elem_of_cons in Hin as [Heq|Hin]; [discriminate Heq|]).
  inversion Hin.
Defined.
